(** * Recoll MCP server: tool dispatch and query translation

    A shallow embedding of [recoll_mcp_server.py] (the result normaliser
    [format_doc_result] and the dispatcher [handle_call_tool]) together with
    the properties of its specification.

    Conventions of the embedding:
    - a Python [str] is a [string]; every [ascii] stands for one character
      (code points 0..255), so [len] is [String.length] and slicing counts
      characters;
    - argument values are the JSON scalars named by the tool schemas
      (string, integer, boolean) and [null];
    - Python exceptions derived from [Exception] are values of [exn]; code
      that may raise lives in the [outcome] type or in the monad [M], which
      also threads the calls made on the index engine;
    - the index engine, the filesystem and the local time zone are external
      collaborators and appear as parameters. *)

From Stdlib Require Import ZArith List String Ascii Lia.
From Stdlib Require Import Decimal DecimalFacts DecimalString DecimalPos.
From stdpp Require Import base option gmap strings.
Import ListNotations.

Local Open Scope string_scope.
Local Open Scope Z_scope.

(** ** Python values and exceptions *)

Module Py.

(** The values an argument object can carry. *)
Inductive pyval :=
| VNone
| VBool (b : bool)
| VInt (z : Z)
| VStr (s : string).

Inductive exn_kind :=
| KeyError | TypeError | ValueError | AttributeError
| StopIteration | OverflowError | OSError | RuntimeError.

(** An exception: its class and the text [str(e)] yields. *)
Record exn := Exn { kind : exn_kind; msg : string }.

Inductive outcome (A : Type) :=
| Ok (a : A)
| Raise (e : exn).
Arguments Ok {A} a.
Arguments Raise {A} e.

Definition obind {A B} (o : outcome A) (k : A -> outcome B) : outcome B :=
  match o with
  | Ok a => k a
  | Raise e => Raise e
  end.

(** [bool(v)] *)
Definition truthy (v : pyval) : bool :=
  match v with
  | VNone => false
  | VBool b => b
  | VInt z => negb (z =? 0)
  | VStr s => negb (String.eqb s "")
  end.

Definition type_name (v : pyval) : string :=
  match v with
  | VNone => "NoneType"
  | VBool _ => "bool"
  | VInt _ => "int"
  | VStr _ => "str"
  end.

(** Decimal rendering of an integer, as [str(n)] does. *)
Definition str_of_Z (z : Z) : string := NilZero.string_of_int (Z.to_int z).

(** [str(v)], which is also what an f-string field [{v}] inserts. *)
Definition py_str (v : pyval) : string :=
  match v with
  | VNone => "None"
  | VBool true => "True"
  | VBool false => "False"
  | VInt z => str_of_Z z
  | VStr s => s
  end.

(** [s[:n]] for a literal [n >= 0]. *)
Fixpoint str_take (n : nat) (s : string) : string :=
  match n, s with
  | O, _ => ""
  | S _, EmptyString => ""
  | S n', String c r => String c (str_take n' r)
  end.

(** [s[n:]] for a literal [n >= 0]. *)
Fixpoint str_drop (n : nat) (s : string) : string :=
  match n, s with
  | O, _ => s
  | S _, EmptyString => ""
  | S n', String _ r => str_drop n' r
  end.

(** [s.startswith(p)] *)
Fixpoint startswith (p s : string) : bool :=
  match p, s with
  | EmptyString, _ => true
  | String _ _, EmptyString => false
  | String a p', String b s' => Ascii.eqb a b && startswith p' s'
  end.

Definition hex_digit (n : nat) : ascii :=
  match n with
  | 0 => "0" | 1 => "1" | 2 => "2" | 3 => "3" | 4 => "4" | 5 => "5"
  | 6 => "6" | 7 => "7" | 8 => "8" | 9 => "9" | 10 => "a" | 11 => "b"
  | 12 => "c" | 13 => "d" | 14 => "e" | _ => "f"
  end%nat%char.

Definition hex2 (c : ascii) : string :=
  let n := nat_of_ascii c in
  String (hex_digit (n / 16)) (String (hex_digit (n mod 16)) "").

Definition dquote : ascii := ascii_of_nat 34.

Fixpoint contains_char (c : ascii) (s : string) : bool :=
  match s with
  | EmptyString => false
  | String a r => Ascii.eqb a c || contains_char c r
  end.

Definition repr_char (q : ascii) (c : ascii) : string :=
  let n := nat_of_ascii c in
  if Ascii.eqb c "\" then "\\"
  else if Ascii.eqb c q then String "\" (String q "")
  else if (n =? 9)%nat then "\t"
  else if (n =? 10)%nat then "\n"
  else if (n =? 13)%nat then "\r"
  else if ((n <? 32) || ((127 <=? n) && (n <=? 160)) || (n =? 173))%nat
       then "\x" ++ hex2 c
  else String c "".

Fixpoint repr_body (q : ascii) (s : string) : string :=
  match s with
  | EmptyString => ""
  | String c r => repr_char q c ++ repr_body q r
  end.

(** [repr(s)] of a string: single quotes unless the text holds a single
    quote and no double quote. *)
Definition py_repr (s : string) : string :=
  let q : ascii :=
    if contains_char "'" s && negb (contains_char dquote s) then dquote
    else "'"%char in
  String q (repr_body q s ++ String q "").

(** *** [int(s)] on a string, as CPython 3.11 does it *)

(** White space [int] skips around the literal: the ASCII characters the C
    scanner skips (tab to carriage return, and the space), and the two
    characters of the alphabet that are Unicode white space and are turned
    into a space beforehand, U+0085 and U+00A0. *)
Definition is_space (c : ascii) : bool :=
  let n := nat_of_ascii c in
  (((9 <=? n) && (n <=? 13)) || (n =? 32) || (n =? 133) || (n =? 160))%nat.

Definition is_digit (c : ascii) : bool :=
  let n := nat_of_ascii c in ((48 <=? n) && (n <=? 57))%nat.

Definition digit_val (c : ascii) : Z := Z.of_nat (nat_of_ascii c) - 48.

Fixpoint lstrip (s : string) : string :=
  match s with
  | EmptyString => ""
  | String c r => if is_space c then lstrip r else s
  end.

(** The scan over the run of digits and underscores at the head of [s]:
    the value read, the number of digits, and what follows the run; [None]
    when two underscores meet or the run ends in an underscore. *)
Fixpoint scan_digits (s : string) (acc digits : Z) (after_underscore : bool)
  : option (Z * Z * string) :=
  match s with
  | EmptyString =>
      if after_underscore then None else Some (acc, digits, EmptyString)
  | String c r =>
      if is_digit c then
        scan_digits r (10 * acc + digit_val c) (digits + 1) false
      else if Ascii.eqb c "_" then
        if after_underscore then None else scan_digits r acc digits true
      else if after_underscore then None
      else Some (acc, digits, s)
  end.

(** The limit on the digits of a decimal literal
    ([sys.get_int_max_str_digits()]). *)
Definition max_str_digits : Z := 4300.

(** [int(s)]: leading white space, an optional sign, a run of digits in
    which single underscores may separate digits, trailing white space.
    Everything else raises [ValueError]: a literal of more than 4300 digits
    with the message of the limit, any other text with [invalid literal],
    which quotes at most 200 characters of [repr(s)]. *)
Definition split_sign (s : string) : Z * string :=
  match s with
  | String c r =>
      if Ascii.eqb c "+" then (1, r)
      else if Ascii.eqb c "-" then (-1, r)
      else (1, s)
  | EmptyString => (1, s)
  end.

Definition starts_with_underscore (s : string) : bool :=
  match s with
  | String c _ => Ascii.eqb c "_"
  | EmptyString => false
  end.

Definition py_int (s : string) : outcome Z :=
  let invalid :=
    Raise (Exn ValueError
             ("invalid literal for int() with base 10: "
              ++ str_take 200 (py_repr s))) in
  let '(sign, body) := split_sign (lstrip s) in
  if starts_with_underscore body then invalid
  else
    match scan_digits body 0 0 false with
    | None => invalid
    | Some (v, digits, rest) =>
        if max_str_digits <? digits then
          Raise (Exn ValueError
                   ("Exceeds the limit (4300 digits) for integer string "
                    ++ "conversion: value has " ++ str_of_Z digits
                    ++ " digits; use sys.set_int_max_str_digits() "
                    ++ "to increase the limit"))
        else if digits =? 0 then invalid
        else
          match lstrip rest with
          | EmptyString => Ok (sign * v)
          | _ => invalid
          end
    end.

End Py.

Export Py.

(** ** JSON documents and [json.dumps(_, indent=2)] *)

Module Json.

#[warnings="-register-all"]
Inductive json :=
| JNull
| JBool (b : bool)
| JInt (z : Z)
| JStr (s : string)
| JList (l : list json)
| JDict (kv : list (string * json)).

Definition of_pyval (v : pyval) : json :=
  match v with
  | VNone => JNull
  | VBool b => JBool b
  | VInt z => JInt z
  | VStr s => JStr s
  end.

(** [d.get(k)] on a dict kept in insertion order. *)
Fixpoint lookup_key (k : string) (kv : list (string * json)) : option json :=
  match kv with
  | [] => None
  | (k', v) :: r => if String.eqb k k' then Some v else lookup_key k r
  end.

Definition has_key (k : string) (kv : list (string * json)) : bool :=
  match lookup_key k kv with
  | Some _ => true
  | None => false
  end.

Definition field (k : string) (v : json) : option json :=
  match v with
  | JDict kv => lookup_key k kv
  | _ => None
  end.

Definition nl : string := String (ascii_of_nat 10) "".

Definition escape_char (c : ascii) : string :=
  let n := nat_of_ascii c in
  if Ascii.eqb c dquote then String "\" (String dquote "")
  else if Ascii.eqb c "\" then "\\"
  else if (n =? 10)%nat then "\n"
  else if (n =? 13)%nat then "\r"
  else if (n =? 9)%nat then "\t"
  else if (n =? 8)%nat then "\b"
  else if (n =? 12)%nat then "\f"
  else if ((32 <=? n) && (n <=? 126))%nat then String c ""
  else "\u00" ++ hex2 c.

Fixpoint escape_body (s : string) : string :=
  match s with
  | EmptyString => ""
  | String c r => escape_char c ++ escape_body r
  end.

Definition encode_str (s : string) : string :=
  String dquote (escape_body s ++ String dquote "").

Fixpoint indent (lvl : nat) : string :=
  match lvl with
  | O => ""
  | S l => "  " ++ indent l
  end.

Fixpoint join (sep : string) (l : list string) : string :=
  match l with
  | [] => ""
  | [x] => x
  | x :: r => x ++ sep ++ join sep r
  end.

Fixpoint dumps_at (lvl : nat) (v : json) : string :=
  match v with
  | JNull => "null"
  | JBool true => "true"
  | JBool false => "false"
  | JInt z => str_of_Z z
  | JStr s => encode_str s
  | JList [] => "[]"
  | JList l =>
      "[" ++ nl
      ++ join ("," ++ nl)
           (map (fun x => indent (S lvl) ++ dumps_at (S lvl) x) l)
      ++ nl ++ indent lvl ++ "]"
  | JDict [] => "{}"
  | JDict kv =>
      "{" ++ nl
      ++ join ("," ++ nl)
           (map (fun p => indent (S lvl) ++ encode_str (fst p) ++ ": "
                          ++ dumps_at (S lvl) (snd p)) kv)
      ++ nl ++ indent lvl ++ "}"
  end.

(** [json.dumps(v, indent=2)] *)
Definition dumps (v : json) : string := dumps_at 0 v.

End Json.

Export Json.

(** ** Local time: [datetime.fromtimestamp(t).strftime(...)] *)

Module Clock.

(** Proleptic Gregorian date (year, month, day) of a day number counted
    from 1970-01-01. *)
Definition civil_from_days (days : Z) : Z * Z * Z :=
  let z := days + 719468 in
  let era := z / 146097 in
  let doe := z - era * 146097 in
  let yoe := (doe - doe / 1460 + doe / 36524 - doe / 146096) / 365 in
  let doy := doe - (365 * yoe + yoe / 4 - yoe / 100) in
  let mp := (5 * doy + 2) / 153 in
  let d := doy - (153 * mp + 2) / 5 + 1 in
  let m := if mp <? 10 then mp + 3 else mp - 9 in
  let y := yoe + era * 400 in
  (if m <=? 2 then y + 1 else y, m, d).

Record datetime := {
  year : Z; month : Z; day : Z; hour : Z; minute : Z; second : Z
}.

(** A value stored in a C [int] of 32 bits. *)
Definition wrap_int (z : Z) : Z := (z + 2 ^ 31) mod 2 ^ 32 - 2 ^ 31.

Section LocalZone.
(** Offset of local time from UTC, in seconds, in force at an instant. *)
Variable utcoffset : Z -> Z.

(** Wall-clock seconds since 1970-01-01 00:00:00 shown at an instant. *)
Definition local_seconds (u : Z) : Z := u + utcoffset u.

(** The platform's [localtime_r] (glibc): the broken-down local time, or
    [EOVERFLOW] when the year minus 1900 ([tm_year]) does not fit a C
    [int]. The caller reads the year as [tm_year + 1900] in a C [int],
    which wraps around for the last 1900 years [localtime_r] can tell. *)
Definition localtime (u : Z) : outcome datetime :=
  let l := local_seconds u in
  let '(y, m, d) := civil_from_days (l / 86400) in
  let s := l mod 86400 in
  if (y - 1900 <? - 2 ^ 31) || (2 ^ 31 <=? y - 1900) then
    Raise (Exn OSError "[Errno 75] Value too large for defined data type")
  else
    Ok {| year := wrap_int y; month := m; day := d;
          hour := s / 3600; minute := (s mod 3600) / 60;
          second := s mod 60 |}.

(** The year test of [utc_to_seconds]. *)
Definition check_year (dt : datetime) : outcome unit :=
  if (year dt <? 1) || (9999 <? year dt) then
    Raise (Exn ValueError
             ("year " ++ str_of_Z (year dt) ++ " is out of range"))
  else Ok tt.

(** [local(u)] of the datetime module, used to probe for a repeated hour:
    the wall-clock seconds at the instant [u]. (CPython counts them from
    0001-01-01; only differences are used, so they are counted from the
    epoch here.) *)
Definition local (u : Z) : outcome Z :=
  if (u <? - 2 ^ 63) || (2 ^ 63 <=? u) then
    Raise (Exn OverflowError "timestamp out of range for platform time_t")
  else
    obind (localtime u) (fun dt =>
    obind (check_year dt) (fun _ =>
    Ok (local_seconds u))).

(** [datetime.fromtimestamp(t)] for an integer [t] (CPython 3.11 on
    glibc): the value must fit [time_t], the local time must be
    representable and its year within 1..9999; then the local time 24
    hours earlier is probed and, when the offset went down in between, the
    instant before the change, and a failure of a probe is a failure of
    the call. *)
Definition fromtimestamp (t : Z) : outcome datetime :=
  if (t <? - 2 ^ 63) || (2 ^ 63 <=? t) then
    Raise (Exn OverflowError "timestamp out of range for platform time_t")
  else
    obind (localtime t) (fun dt =>
    obind (check_year dt) (fun _ =>
    obind (local (t - 86400)) (fun probe_seconds =>
    let transition := local_seconds t - probe_seconds - 86400 in
    obind (if transition <? 0 then local (t + transition) else Ok 0)
      (fun _ => Ok dt)))).
End LocalZone.

(** Zero-padded decimal field of at least [w] characters. *)
Definition pad (w : nat) (z : Z) : string :=
  let s := str_of_Z z in
  let fix zeros (k : nat) : string :=
    match k with O => "" | S k' => String "0" (zeros k') end in
  zeros (w - String.length s)%nat ++ s.

(** [dt.strftime("%Y-%m-%d %H:%M:%S")] through glibc: the year is written
    without padding, the other fields with two digits. *)
Definition strftime (dt : datetime) : string :=
  str_of_Z (year dt) ++ "-" ++ pad 2 (month dt) ++ "-" ++ pad 2 (day dt)
  ++ " " ++ pad 2 (hour dt) ++ ":" ++ pad 2 (minute dt) ++ ":"
  ++ pad 2 (second dt).

End Clock.

Export Clock.

(** ** The index engine, seen through a stub that records calls *)

Module Engine.

(** One raw hit. Every attribute is a string; [abstract] may be missing. *)
Record Doc := {
  filename : string;
  url : string;
  mimetype : string;
  fbytes : string;
  mtime : string;
  abstract : option string
}.

(** The connection handle, as a stub: whether [query()] yields a handle or
    raises; what [execute] answers for an expression (the reported total
    and the hits its cursor will deliver, or the exception it raises); and
    the exception a fetch ends in once the cursor has nothing left
    ([StopIteration] for the engine as documented; an engine that answers
    [None] instead makes the attribute access in [format_doc_result] raise
    [AttributeError] at the same point). *)
Record Db := {
  query_answer : outcome unit;
  execute_answer : pyval -> outcome (Z * list Doc);
  exhausted : exn
}.

Inductive call :=
| CallQuery
| CallExecute (expression : pyval)
| CallFetchone.

(** State threaded through an invocation: the calls made on the engine so
    far and the cursor of the current query handle. *)
Record world := { calls : list call; cursor : list Doc }.

Definition M (A : Type) : Type := world -> outcome A * world.

Definition ret {A} (a : A) : M A := fun w => (Ok a, w).

Definition raise {A} (e : exn) : M A := fun w => (Raise e, w).

Definition bind {A B} (m : M A) (k : A -> M B) : M B :=
  fun w =>
    match m w with
    | (Ok a, w') => k a w'
    | (Raise e, w') => (Raise e, w')
    end.

Definition lift {A} (o : outcome A) : M A := fun w => (o, w).

(** [try: body / except Exception as e: handler(e)] *)
Definition try_except {A} (body : M A) (handler : exn -> M A) : M A :=
  fun w =>
    match body w with
    | (Ok a, w') => (Ok a, w')
    | (Raise e, w') => handler e w'
    end.

Definition record (c : call) (w : world) : world :=
  {| calls := (calls w ++ [c])%list; cursor := cursor w |}.

(** [db.query()]: a fresh query handle, its cursor empty. *)
Definition db_query (db : Db) : M unit :=
  fun w =>
    (query_answer db,
     {| calls := (calls w ++ [CallQuery])%list; cursor := [] |}).

(** [query.execute(expression)] *)
Definition query_execute (db : Db) (expression : pyval) : M Z :=
  fun w =>
    let w' := record (CallExecute expression) w in
    match execute_answer db expression with
    | Ok (nres, hits) => (Ok nres, {| calls := calls w'; cursor := hits |})
    | Raise e => (Raise e, w')
    end.

(** [query.fetchone()]: the next hit, or the engine's exception once the
    cursor is exhausted. *)
Definition query_fetchone (db : Db) : M Doc :=
  fun w =>
    let w' := record CallFetchone w in
    match cursor w with
    | [] => (Raise (exhausted db), w')
    | doc :: rest => (Ok doc, {| calls := calls w'; cursor := rest |})
    end.

End Engine.

Export Engine.

Declare Scope py_scope.
Delimit Scope py_scope with py.
Notation "x <- c1 ;; c2" := (bind c1 (fun x => c2))
  (at level 20, c1 at level 99, c2 at level 200) : py_scope.
Notation "x <~ c1 ;; c2" := (obind c1 (fun x => c2))
  (at level 20, c1 at level 99, c2 at level 200) : py_scope.

(** ** The server: [recoll_mcp_server.py] *)

(** The text of a content item, kept as the expression that produced it:
    a literal or f-string, or [json.dumps(v, indent=2)]. *)
Inductive text_src :=
| Plain (s : string)
| Dumps (v : json).

Definition text_value (t : text_src) : string :=
  match t with
  | Plain s => s
  | Dumps v => dumps v
  end.

Record TextContent := { type : string; text : text_src }.

(** [arguments[key]] *)
Definition getitem (arguments : gmap string pyval) (key : string)
  : outcome pyval :=
  match arguments !! key with
  | Some v => Ok v
  | None => Raise (Exn KeyError (py_repr key))
  end.

(** [arguments.get(key, dflt)] *)
Definition get (arguments : gmap string pyval) (key : string) (dflt : pyval)
  : pyval :=
  default dflt (arguments !! key).

(** [a + b] where [b] is a [str]. *)
Definition add_str (a : pyval) (b : string) : outcome string :=
  match a with
  | VStr s => Ok (s ++ b)
  | _ =>
      Raise (Exn TypeError
               ("unsupported operand type(s) for +: '" ++ type_name a
                ++ "' and 'str'"))
  end.

(** The bound of [range(min(max_results, nres))] for an integer [nres]:
    [min] compares [nres < max_results], which raises for a value that is
    no number; a [bool] counts as 0 or 1. *)
Definition range_min (max_results : pyval) (nres : Z) : outcome Z :=
  match max_results with
  | VInt m => Ok (Z.min m nres)
  | VBool b => Ok (Z.min (Z.b2z b) nres)
  | _ =>
      Raise (Exn TypeError
               ("'<' not supported between instances of 'int' and '"
                ++ type_name max_results ++ "'"))
  end.

(** What a search branch has settled before it first touches the engine:
    the first key of its envelope and the value echoed under it, the
    expression to execute, the result limit and the preview flag handed to
    [format_doc_result]. *)
Record search_params := {
  echo_key : string;
  echo : pyval;
  expression : pyval;
  max_results : pyval;
  include_preview : pyval
}.

Section Server.
Local Open Scope py_scope.

(** Offset of the process's local time zone from UTC at an instant. *)
Variable utcoffset : Z -> Z.

(** [open(path, 'r', encoding='utf-8', errors='ignore')] followed by
    [f.read()]: the decoded text, or the exception raised. *)
Variable open_read : string -> outcome string.

Definition format_doc_result (doc : Doc) (include_preview : pyval)
  : outcome (list (string * json)) :=
  seconds <~ py_int (str_drop 1 (mtime doc)) ;;
  dt <~ fromtimestamp utcoffset seconds ;;
  let result :=
    [ ("filename", JStr (filename doc));
      ("url", JStr (url doc));
      ("mimetype", JStr (mimetype doc));
      ("size", JStr (fbytes doc));
      ("mtime", JStr (mtime doc));
      ("mtime_readable", JStr (strftime dt)) ] in
  match truthy include_preview, abstract doc with
  | true, Some a => Ok (result ++ [("preview", JStr (str_take 300 a))])%list
  | _, _ => Ok result
  end.

(** The loop [for i in range(n): doc = query.fetchone();
    results.append(format_doc_result(doc, include_preview))]. *)
Fixpoint fetch_loop (db : Db) (include_preview : pyval) (n : nat)
  (results : list json) : M (list json) :=
  match n with
  | O => ret results
  | S n' =>
      doc <- query_fetchone db ;;
      hit <- lift (format_doc_result doc include_preview) ;;
      fetch_loop db include_preview n' (results ++ [JDict hit])%list
  end.

Definition search_envelope (p : search_params) (nres : Z)
  (results : list json) : json :=
  JDict [ (echo_key p, of_pyval (echo p));
          ("total_results", JInt nres);
          ("returned_results", JInt (Z.of_nat (length results)));
          ("results", JList results) ].

(** The block every search branch ends with: open a query, execute the
    expression, fetch and normalise the hits, wrap them in an envelope. *)
Definition search_reply (db : Db) (p : search_params)
  : M (list TextContent) :=
  _ <- db_query db ;;
  nres <- query_execute db (expression p) ;;
  n <- lift (range_min (max_results p) nres) ;;
  results <- fetch_loop db (include_preview p) (Z.to_nat n) [] ;;
  ret [ {| type := "text";
           text := Dumps (search_envelope p nres results) |} ].

Definition search_filesystem_args (arguments : gmap string pyval)
  : outcome search_params :=
  query_str <~ getitem arguments "query" ;;
  let max_results := get arguments "max_results" (VInt 20) in
  let include_preview := get arguments "include_preview" (VBool true) in
  Ok {| echo_key := "query"; echo := query_str; expression := query_str;
        max_results := max_results; include_preview := include_preview |}.

(** The date clause of [search_by_date]; an absent bound is [None]. *)
Definition date_filter (start_date end_date : pyval) : string :=
  if truthy start_date && truthy end_date then
    " date:" ++ py_str start_date ++ "/" ++ py_str end_date
  else if truthy start_date then
    " date:" ++ py_str start_date ++ "/"
  else if truthy end_date then
    " date:/" ++ py_str end_date
  else "".

Definition search_by_date_args (arguments : gmap string pyval)
  : outcome search_params :=
  query_str <~ getitem arguments "query" ;;
  let start_date := get arguments "start_date" VNone in
  let end_date := get arguments "end_date" VNone in
  let max_results := get arguments "max_results" (VInt 20) in
  full_query <~ add_str query_str (date_filter start_date end_date) ;;
  Ok {| echo_key := "query"; echo := VStr full_query;
        expression := VStr full_query;
        max_results := max_results; include_preview := VBool true |}.

Definition search_by_filetype_args (arguments : gmap string pyval)
  : outcome search_params :=
  query_str <~ getitem arguments "query" ;;
  filetype <~ getitem arguments "filetype" ;;
  let max_results := get arguments "max_results" (VInt 20) in
  let full_query := py_str query_str ++ " mime:" ++ py_str filetype in
  Ok {| echo_key := "query"; echo := VStr full_query;
        expression := VStr full_query;
        max_results := max_results; include_preview := VBool true |}.

Definition list_recent_files_args (arguments : gmap string pyval)
  : outcome search_params :=
  let days := get arguments "days" (VInt 7) in
  let max_results := get arguments "max_results" (VInt 20) in
  Ok {| echo_key := "days"; echo := days;
        expression := VStr ("date:" ++ py_str days ++ "d/");
        max_results := max_results; include_preview := VBool true |}.

Definition content_envelope (url filepath content : string) : json :=
  JDict [ ("url", JStr url);
          ("filepath", JStr filepath);
          ("content", JStr (str_take (Z.to_nat 10000) content));
          ("truncated",
            JBool (10000 <? Z.of_nat (String.length content))) ].

(** The path a url stands for: [url[7:]] after a [file://] prefix, else
    the url itself. *)
Definition filepath_of (url : string) : string :=
  if startswith "file://" url then str_drop 7 url else url.

Definition get_document_content (arguments : gmap string pyval)
  : M (list TextContent) :=
  url <- lift (getitem arguments "url") ;;
  match url with
  | VStr url =>
      let filepath := filepath_of url in
      match open_read filepath with
      | Ok content =>
          ret [ {| type := "text";
                   text := Dumps (content_envelope url filepath content) |} ]
      | Raise e =>
          ret [ {| type := "text";
                   text := Plain ("Error reading file: " ++ msg e) |} ]
      end
  | _ =>
      raise (Exn AttributeError
               ("'" ++ type_name url
                ++ "' object has no attribute 'startswith'"))
  end.

Definition unavailable : list TextContent :=
  [ {| type := "text";
       text := Plain
         "Error: Recoll database not available. Check configuration." |} ].

Definition unknown_tool (name : string) : list TextContent :=
  [ {| type := "text"; text := Plain ("Unknown tool: " ++ name) |} ].

Definition search_failed (e : exn) : list TextContent :=
  [ {| type := "text";
       text := Plain ("Error executing search: " ++ msg e) |} ].

(** The [if]/[elif] chain inside the [try]. *)
Definition dispatch (db : Db) (name : string)
  (arguments : gmap string pyval) : M (list TextContent) :=
  if String.eqb name "search_filesystem" then
    p <- lift (search_filesystem_args arguments) ;; search_reply db p
  else if String.eqb name "search_by_date" then
    p <- lift (search_by_date_args arguments) ;; search_reply db p
  else if String.eqb name "search_by_filetype" then
    p <- lift (search_by_filetype_args arguments) ;; search_reply db p
  else if String.eqb name "get_document_content" then
    get_document_content arguments
  else if String.eqb name "list_recent_files" then
    p <- lift (list_recent_files_args arguments) ;; search_reply db p
  else ret (unknown_tool name).

Definition handle_call_tool (db : option Db) (name : string)
  (arguments : gmap string pyval) : M (list TextContent) :=
  match db with
  | None => ret unavailable
  | Some db =>
      try_except (dispatch db name arguments)
        (fun e => ret (search_failed e))
  end.

End Server.

(** One entry of the registry: its name and, from its input schema, the
    properties (name, type, default) and the required names. *)
Record Tool := {
  tool_name : string;
  properties : list (string * string * option pyval);
  required : list string
}.

Definition handle_list_tools : list Tool :=
  [ {| tool_name := "search_filesystem";
       properties := [ ("query", "string", None);
                       ("max_results", "integer", Some (VInt 20));
                       ("include_preview", "boolean", Some (VBool true)) ];
       required := ["query"] |};
    {| tool_name := "search_by_date";
       properties := [ ("query", "string", None);
                       ("start_date", "string", None);
                       ("end_date", "string", None);
                       ("max_results", "integer", Some (VInt 20)) ];
       required := ["query"] |};
    {| tool_name := "search_by_filetype";
       properties := [ ("query", "string", None);
                       ("filetype", "string", None);
                       ("max_results", "integer", Some (VInt 20)) ];
       required := ["query"; "filetype"] |};
    {| tool_name := "get_document_content";
       properties := [ ("url", "string", None) ];
       required := ["url"] |};
    {| tool_name := "list_recent_files";
       properties := [ ("days", "integer", Some (VInt 7));
                       ("max_results", "integer", Some (VInt 20)) ];
       required := [] |} ].

(** The names the registry advertises, in order. *)
Definition tool_names : list string := map tool_name handle_list_tools.

(** The argument stage of a search-family branch of [dispatch]. *)
Definition search_family_args (name : string)
  (arguments : gmap string pyval) : option (outcome search_params) :=
  if String.eqb name "search_filesystem" then
    Some (search_filesystem_args arguments)
  else if String.eqb name "search_by_date" then
    Some (search_by_date_args arguments)
  else if String.eqb name "search_by_filetype" then
    Some (search_by_filetype_args arguments)
  else if String.eqb name "list_recent_files" then
    Some (list_recent_files_args arguments)
  else None.

(** The six entries every normalised hit starts with. *)
Definition base_record (doc : Doc) (readable : string)
  : list (string * json) :=
  [ ("filename", JStr (filename doc));
    ("url", JStr (url doc));
    ("mimetype", JStr (mimetype doc));
    ("size", JStr (fbytes doc));
    ("mtime", JStr (mtime doc));
    ("mtime_readable", JStr readable) ].

(** The entry [result["preview"] = doc.abstract[:300]] adds, if any. *)
Definition preview_entry (ip : pyval) (doc : Doc) : list (string * json) :=
  match truthy ip, abstract doc with
  | true, Some a => [("preview", JStr (str_take 300 a))]
  | _, _ => []
  end.

Definition with_abstract (doc : Doc) (a : string) : Doc :=
  {| filename := filename doc; url := url doc; mimetype := mimetype doc;
     fbytes := fbytes doc; mtime := mtime doc; abstract := Some a |}.

(** Reading a response back: its envelope, the hits in it, and whether a
    hit carries a preview. *)
Definition envelope_of (r : outcome (list TextContent) * world)
  : option json :=
  match fst r with
  | Ok [ {| type := _; text := Dumps env |} ] => Some env
  | _ => None
  end.

Definition results_of (env : json) : list json :=
  match field "results" env with
  | Some (JList l) => l
  | _ => []
  end.

Definition has_preview (hit : json) : bool :=
  match hit with
  | JDict kv => has_key "preview" kv
  | _ => false
  end.

Definition text_item (t : text_src) : TextContent :=
  {| type := "text"; text := t |}.

(** The world after [n] further [fetchone] calls that found a hit. *)
Definition after_fetches (n : nat) (w : world) : world :=
  {| calls := (calls w ++ repeat CallFetchone n)%list;
     cursor := skipn n (cursor w) |}.

(** ** Concrete collaborators for the worked cases *)

(** A process running in UTC. *)
Definition utc : Z -> Z := fun _ => 0.

(** A filesystem holding the single file [/tmp/x.txt]. *)
Definition demo_fs (path : string) : outcome string :=
  if String.eqb path "/tmp/x.txt" then Ok "hello"
  else Raise (Exn OSError
                ("[Errno 2] No such file or directory: " ++ py_repr path)).

Definition note_doc : Doc :=
  {| filename := "notes.txt"; url := "file:///home/u/notes.txt";
     mimetype := "text/plain"; fbytes := "11"; mtime := "01700000000";
     abstract := Some "hello world" |}.

(** A hit whose timestamp token does not end in a decimal number. *)
Definition odd_doc : Doc :=
  {| filename := "odd.txt"; url := "file:///home/u/odd.txt";
     mimetype := "text/plain"; fbytes := "3"; mtime := "0abc";
     abstract := None |}.

(** An engine that reports two matches and delivers both. *)
Definition two_hits : Db :=
  {| query_answer := Ok tt;
     execute_answer := fun _ => Ok (2, [note_doc; note_doc]);
     exhausted := Exn StopIteration "" |}.

(** An engine that reports two matches and delivers one. *)
Definition short_db : Db :=
  {| query_answer := Ok tt;
     execute_answer := fun _ => Ok (2, [note_doc]);
     exhausted := Exn StopIteration "" |}.

(** An engine whose first hit carries the odd timestamp token. *)
Definition odd_db : Db :=
  {| query_answer := Ok tt;
     execute_answer := fun _ => Ok (1, [odd_doc]);
     exhausted := Exn StopIteration "" |}.

Definition idle : world := {| calls := []; cursor := [] |}.

Definition todo_args : gmap string pyval := {[ "query" := VStr "todo" ]}.

Definition pdf_args : gmap string pyval :=
  <[ "filetype" := VStr "pdf" ]> {[ "query" := VStr "yubikey" ]}.

Definition since_args : gmap string pyval :=
  <[ "start_date" := VStr "2025-01-01" ]> {[ "query" := VStr "todo" ]}.

Definition x_args : gmap string pyval :=
  {[ "url" := VStr "file:///tmp/x.txt" ]}.

(** The run of search-by-date on [two_hits] and the envelope it returns. *)
Definition since_run : outcome (list TextContent) * world :=
  Eval vm_compute in
    handle_call_tool utc demo_fs (Some two_hits) "search_by_date"
      since_args idle.

Definition since_env : json :=
  Eval vm_compute in
    match envelope_of since_run with
    | Some env => env
    | None => JNull
    end.

Definition since_params : search_params :=
  {| echo_key := "query"; echo := VStr "todo date:2025-01-01/";
     expression := VStr "todo date:2025-01-01/";
     max_results := VInt 20; include_preview := VBool true |}.

Definition todo_params : search_params :=
  {| echo_key := "query"; echo := VStr "todo"; expression := VStr "todo";
     max_results := VInt 20; include_preview := VBool true |}.

(** A text of 10001 characters. *)
Definition long_text : string :=
  Eval vm_compute in
    (fix fill (n : nat) : string :=
       match n with O => EmptyString | S k => String "a" (fill k) end)
      (Z.to_nat 10001).

(** ** Decimal tokens and the range of the calendar *)

(** The value of a run of decimal digits read after [acc]. *)
Fixpoint uint_val (d : Decimal.uint) (acc : Z) : Z :=
  match d with
  | Decimal.Nil => acc
  | Decimal.D0 l => uint_val l (10 * acc + 0)
  | Decimal.D1 l => uint_val l (10 * acc + 1)
  | Decimal.D2 l => uint_val l (10 * acc + 2)
  | Decimal.D3 l => uint_val l (10 * acc + 3)
  | Decimal.D4 l => uint_val l (10 * acc + 4)
  | Decimal.D5 l => uint_val l (10 * acc + 5)
  | Decimal.D6 l => uint_val l (10 * acc + 6)
  | Decimal.D7 l => uint_val l (10 * acc + 7)
  | Decimal.D8 l => uint_val l (10 * acc + 8)
  | Decimal.D9 l => uint_val l (10 * acc + 9)
  end.

Definition ulen (d : Decimal.uint) : Z := Z.of_nat (Decimal.nb_digits d).

(** Characters a literal [int] accepts may consist of. *)
Definition literal_char (c : ascii) : bool :=
  is_digit c || is_space c || Ascii.eqb c "+" || Ascii.eqb c "-"
  || Ascii.eqb c "_".

Fixpoint all_chars (P : ascii -> bool) (s : string) : bool :=
  match s with
  | EmptyString => true
  | String c r => P c && all_chars P r
  end.

(** The first and the last second of the years 1 to 9999, counted from
    1970-01-01 00:00:00. *)
Definition first_second : Z := -62135596800.
Definition last_second : Z := 253402300799.


(** A hit like [doc] whose timestamp token is [token]. *)
Definition with_mtime (doc : Doc) (token : string) : Doc :=
  {| filename := filename doc; url := url doc; mimetype := mimetype doc;
     fbytes := fbytes doc; mtime := token; abstract := abstract doc |}.

(** An engine whose second hit carries the odd timestamp token. *)
Definition mixed_db : Db :=
  {| query_answer := Ok tt;
     execute_answer := fun _ => Ok (2, [note_doc; odd_doc]);
     exhausted := Exn StopIteration "" |}.

(** ** Strings: prefix cuts *)

Section StrFacts.

Lemma str_take_length n s :
  String.length (str_take n s) = Nat.min n (String.length s).
Proof.
  revert s; induction n as [|n IH]; intros [|c r]; simpl; auto.
Qed.

Lemma str_take_all n s :
  (String.length s <= n)%nat -> str_take n s = s.
Proof.
  revert s; induction n as [|n IH]; intros [|c r]; simpl; intros H;
    try reflexivity; try lia.
  f_equal. apply IH. lia.
Qed.

Lemma append_String c a b : String c a ++ b = String c (a ++ b).
Proof. reflexivity. Qed.

Lemma append_empty s : s ++ EmptyString = s.
Proof.
  induction s as [|c s IH]; [reflexivity|].
  now rewrite append_String, IH.
Qed.

Lemma str_take_drop n s : str_take n s ++ str_drop n s = s.
Proof.
  revert s; induction n as [|n IH]; intros [|c r]; simpl; auto.
  now rewrite append_String, IH.
Qed.

Lemma str_take_min n s :
  str_take n s = str_take (Nat.min n (String.length s)) s.
Proof.
  destruct (Nat.le_gt_cases n (String.length s)) as [H|H].
  - now rewrite Nat.min_l.
  - rewrite Nat.min_r by lia. rewrite !str_take_all; auto; lia.
Qed.

Lemma str_take_idem n s : str_take n (str_take n s) = str_take n s.
Proof.
  apply str_take_all. rewrite str_take_length. lia.
Qed.

Lemma startswith_split p s :
  startswith p s = true -> s = p ++ str_drop (String.length p) s.
Proof.
  revert s; induction p as [|a p IH]; intros [|b s]; simpl; intros H;
    try reflexivity; try discriminate.
  apply andb_prop in H as [Hab Hps].
  apply Ascii.eqb_eq in Hab; subst b.
  rewrite append_String. f_equal. now apply IH.
Qed.

Lemma startswith_append p r : startswith p (p ++ r) = true.
Proof.
  induction p as [|a p IH]; [reflexivity|].
  rewrite append_String; simpl.
  rewrite Ascii.eqb_refl. exact IH.
Qed.

Lemma str_drop_append p r : str_drop (String.length p) (p ++ r) = r.
Proof.
  induction p as [|a p IH]; [reflexivity|].
  rewrite append_String; simpl; auto.
Qed.

End StrFacts.


(** ** The fetch loop *)

Section FetchLoop.
Variable utcoffset : Z -> Z.
Variable db : Db.

(** A raw hit the normaliser accepts under a given preview flag. *)
Definition normalizes (ip : pyval) (doc : Doc) : Prop :=
  exists hit, format_doc_result utcoffset doc ip = Ok hit.

Definition normalized (ip : pyval) (doc : Doc) (hit : list (string * json))
  : Prop :=
  format_doc_result utcoffset doc ip = Ok hit.

Lemma normalizes_all ip docs :
  Forall (normalizes ip) docs ->
  exists hits, Forall2 (normalized ip) docs hits.
Proof.
  induction 1 as [|doc docs [hit Hhit] _ [hits IH]].
  - exists []. constructor.
  - exists (hit :: hits). now constructor.
Qed.

Lemma after_fetches_0 w : after_fetches 0 w = w.
Proof.
  destruct w as [cs cur]. unfold after_fetches; simpl.
  now rewrite app_nil_r.
Qed.

Lemma after_fetches_S n doc rest cs :
  after_fetches n
    {| calls := (cs ++ [CallFetchone])%list; cursor := rest |}
  = after_fetches (S n) {| calls := cs; cursor := doc :: rest |}.
Proof.
  unfold after_fetches; simpl. now rewrite <- app_assoc.
Qed.

(** When the cursor holds [n] hits the normaliser accepts, the loop
    appends their records in order and leaves the cursor after them. *)
Lemma fetch_loop_delivered ip n : forall acc w hits,
  Forall2 (normalized ip) (firstn n (cursor w)) hits ->
  (n <= length (cursor w))%nat ->
  fetch_loop utcoffset db ip n acc w
  = (Ok (acc ++ map JDict hits)%list, after_fetches n w).
Proof.
  induction n as [|n IH]; intros acc [cs cur] hits HF Hlen; simpl in *.
  - inversion HF; subst. rewrite app_nil_r.
    now rewrite (after_fetches_0 {| calls := cs; cursor := cur |}).
  - destruct cur as [|doc rest]; simpl in *; [lia|].
    inversion HF as [|? hit ? hits' Hhit HF']; subst.
    unfold bind at 1, query_fetchone at 1; simpl.
    unfold bind at 1, lift at 1. red in Hhit. rewrite Hhit.
    rewrite (IH _ _ hits'); simpl; [|assumption|lia].
    rewrite <- app_assoc; simpl.
    now rewrite (after_fetches_S n doc).
Qed.

(** When the cursor runs dry before [n] fetches, the loop ends in the
    exception of the fetch that found nothing. *)
Lemma fetch_loop_exhausted ip n : forall acc w,
  Forall (normalizes ip) (cursor w) ->
  (length (cursor w) < n)%nat ->
  fetch_loop utcoffset db ip n acc w
  = (Raise (exhausted db),
     {| calls := (calls w ++ repeat CallFetchone (S (length (cursor w))))%list;
        cursor := [] |}).
Proof.
  induction n as [|n IH]; intros acc [cs cur] HF Hlen; simpl in *; [lia|].
  destruct cur as [|doc rest]; simpl in *.
  - reflexivity.
  - inversion HF as [|? ? [hit Hhit] HF']; subst.
    unfold bind at 1, query_fetchone at 1; simpl.
    unfold bind at 1, lift at 1. rewrite Hhit.
    rewrite IH; simpl; [|assumption|lia].
    now rewrite <- app_assoc.
Qed.

(** Whatever the loop returns was normalised, hit by hit, from the first
    [n] entries of the cursor. *)
Lemma fetch_loop_inv ip n : forall acc w results w',
  fetch_loop utcoffset db ip n acc w = (Ok results, w') ->
  exists hits,
    results = (acc ++ map JDict hits)%list
    /\ Forall2 (normalized ip) (firstn n (cursor w)) hits
    /\ (n <= length (cursor w))%nat
    /\ w' = after_fetches n w.
Proof.
  induction n as [|n IH]; intros acc [cs cur] results w' H; simpl in *.
  - inversion H; subst. exists []. rewrite app_nil_r.
    repeat split; [constructor|lia|].
    now rewrite (after_fetches_0 {| calls := cs; cursor := cur |}).
  - destruct cur as [|doc rest]; simpl in *.
    + discriminate.
    + unfold bind at 1, query_fetchone at 1 in H; simpl in H.
      unfold bind at 1, lift at 1 in H.
      destruct (format_doc_result utcoffset doc ip) as [hit|e] eqn:Hhit;
        [|discriminate].
      apply IH in H as (hits & -> & HF & Hlen & ->); simpl in *.
      exists (hit :: hits). rewrite <- app_assoc; simpl.
      repeat split; [now constructor|lia|].
      now rewrite (after_fetches_S n doc).
Qed.

Lemma normalized_records ip docs hits :
  Forall2 (normalized ip) docs hits ->
  Forall2
    (fun doc r =>
       exists hit, format_doc_result utcoffset doc ip = Ok hit /\ r = JDict hit)
    docs (map JDict hits).
Proof.
  induction 1 as [|doc hit docs hits Hd _ IH]; simpl; constructor;
    [now exists hit|exact IH].
Qed.

Lemma Forall2_length_eq {A B} (R : A -> B -> Prop) l1 l2 :
  Forall2 R l1 l2 -> length l1 = length l2.
Proof. induction 1; simpl; auto. Qed.

End FetchLoop.

(** ** The dispatcher, branch by branch *)

Section DispatchFacts.
Variable utcoffset : Z -> Z.
Variable open_read : string -> outcome string.

(** The world once a query was opened and executed on [stream]. *)
Definition executed (p : search_params) (stream : list Doc) (w : world)
  : world :=
  {| calls := (calls w ++ [CallQuery; CallExecute (expression p)])%list;
     cursor := stream |}.

Lemma search_reply_prefix db p w :
  search_reply utcoffset db p w
  = match query_answer db with
    | Ok _ =>
        match execute_answer db (expression p) with
        | Ok (nres, stream) =>
            match range_min (max_results p) nres with
            | Ok b =>
                match fetch_loop utcoffset db (include_preview p)
                        (Z.to_nat b) [] (executed p stream w) with
                | (Ok results, w') =>
                    (Ok [text_item (Dumps (search_envelope p nres results))],
                     w')
                | (Raise e, w') => (Raise e, w')
                end
            | Raise e => (Raise e, executed p stream w)
            end
        | Raise e =>
            (Raise e,
             {| calls :=
                  (calls w ++ [CallQuery; CallExecute (expression p)])%list;
                cursor := [] |})
        end
    | Raise e =>
        (Raise e, {| calls := (calls w ++ [CallQuery])%list; cursor := [] |})
    end.
Proof.
  unfold search_reply, bind, db_query, query_execute, record, lift, ret,
    executed; simpl.
  destruct (query_answer db) as [[]|e]; [|reflexivity].
  rewrite <- !app_assoc; simpl.
  destruct (execute_answer db (expression p)) as [[nres stream]|e];
    [|reflexivity].
  destruct (range_min (max_results p) nres) as [b|e]; reflexivity.
Qed.

Lemma search_reply_delivered db p w nres stream b hits :
  query_answer db = Ok tt ->
  execute_answer db (expression p) = Ok (nres, stream) ->
  range_min (max_results p) nres = Ok b ->
  Forall2 (normalized utcoffset (include_preview p))
    (firstn (Z.to_nat b) stream) hits ->
  (Z.to_nat b <= length stream)%nat ->
  search_reply utcoffset db p w
  = (Ok [text_item (Dumps (search_envelope p nres (map JDict hits)))],
     after_fetches (Z.to_nat b) (executed p stream w)).
Proof.
  intros Hq He Hr HF Hlen. rewrite search_reply_prefix, Hq, He, Hr.
  now rewrite (fetch_loop_delivered _ _ _ _ _ _ hits).
Qed.

Lemma search_reply_exhausted db p w nres stream b :
  query_answer db = Ok tt ->
  execute_answer db (expression p) = Ok (nres, stream) ->
  range_min (max_results p) nres = Ok b ->
  Forall (normalizes utcoffset (include_preview p)) stream ->
  (length stream < Z.to_nat b)%nat ->
  search_reply utcoffset db p w
  = (Raise (exhausted db),
     {| calls := (calls (executed p stream w)
                  ++ repeat CallFetchone (S (length stream)))%list;
        cursor := [] |}).
Proof.
  intros Hq He Hr HF Hlen. rewrite search_reply_prefix, Hq, He, Hr.
  now rewrite fetch_loop_exhausted.
Qed.

(** A hit the normaliser refuses, met first by the loop, ends the block in
    the normaliser's exception. *)
Lemma search_reply_refused db p w nres doc rest b e :
  query_answer db = Ok tt ->
  execute_answer db (expression p) = Ok (nres, doc :: rest) ->
  range_min (max_results p) nres = Ok b ->
  0 < b ->
  format_doc_result utcoffset doc (include_preview p) = Raise e ->
  fst (search_reply utcoffset db p w) = Raise e.
Proof.
  intros Hq He Hr Hb Hd. rewrite search_reply_prefix, Hq, He, Hr.
  destruct (Z.to_nat b) as [|n] eqn:Hn; [lia|]. simpl.
  unfold bind at 1, query_fetchone at 1; simpl.
  unfold bind at 1, lift at 1. now rewrite Hd.
Qed.

Lemma search_reply_inv db p w items w' :
  search_reply utcoffset db p w = (Ok items, w') ->
  exists nres stream b hits,
    execute_answer db (expression p) = Ok (nres, stream)
    /\ range_min (max_results p) nres = Ok b
    /\ Forall2 (normalized utcoffset (include_preview p))
         (firstn (Z.to_nat b) stream) hits
    /\ (Z.to_nat b <= length stream)%nat
    /\ items = [text_item (Dumps (search_envelope p nres (map JDict hits)))].
Proof.
  rewrite search_reply_prefix.
  destruct (query_answer db) as [[]|e]; [|discriminate].
  destruct (execute_answer db (expression p)) as [[nres stream]|e] eqn:He;
    [|discriminate].
  destruct (range_min (max_results p) nres) as [b|e] eqn:Hr; [|discriminate].
  destruct (fetch_loop _ _ _ _ _) as [[results|e] w1] eqn:Hloop;
    [|discriminate].
  intros H; inversion H; subst.
  apply fetch_loop_inv in Hloop as (hits & -> & HF & Hlen & _).
  exists nres, stream, b, hits. simpl in *.
  repeat split; assumption || reflexivity.
Qed.

Lemma dispatch_search db name arguments o :
  search_family_args name arguments = Some o ->
  dispatch utcoffset open_read db name arguments
  = bind (lift o) (search_reply utcoffset db).
Proof.
  unfold search_family_args, dispatch.
  destruct (String.eqb name "search_filesystem"); [now intros [= <-]|].
  destruct (String.eqb name "search_by_date"); [now intros [= <-]|].
  destruct (String.eqb name "search_by_filetype"); [now intros [= <-]|].
  destruct (String.eqb name "get_document_content") eqn:Hg.
  - apply String.eqb_eq in Hg; subst name. discriminate.
  - destruct (String.eqb name "list_recent_files"); [now intros [= <-]|].
    discriminate.
Qed.

Lemma dispatch_unknown db name arguments :
  ~ In name tool_names ->
  dispatch utcoffset open_read db name arguments = ret (unknown_tool name).
Proof.
  intros Hn. unfold dispatch.
  repeat match goal with
  | |- context [String.eqb name ?s] =>
      destruct (String.eqb_spec name s) as [->|_];
      [exfalso; apply Hn; simpl; tauto|]
  end.
  reflexivity.
Qed.

(** *** Every path ends in one text item *)

Definition one_text_item (items : list TextContent) : Prop :=
  exists t, items = [text_item t].

Definition returns_one_item (r : outcome (list TextContent) * world) : Prop :=
  match fst r with
  | Ok items => one_text_item items
  | Raise _ => True
  end.

Lemma bind_returns_one_item {A} (m : M A) k w :
  (forall a w', returns_one_item (k a w')) ->
  returns_one_item (bind m k w).
Proof.
  intros Hk. unfold bind. destruct (m w) as [[a|e] w']; [apply Hk|exact I].
Qed.

Lemma search_reply_one_item db p w :
  returns_one_item (search_reply utcoffset db p w).
Proof.
  unfold search_reply.
  repeat (apply bind_returns_one_item; intros).
  red; simpl. now eexists.
Qed.

Lemma get_document_content_one_item arguments w :
  returns_one_item (get_document_content open_read arguments w).
Proof.
  unfold get_document_content.
  apply bind_returns_one_item; intros [| | |url] w'; try exact I.
  destruct (open_read _); red; simpl; now eexists.
Qed.

Lemma dispatch_one_item db name arguments w :
  returns_one_item (dispatch utcoffset open_read db name arguments w).
Proof.
  unfold dispatch.
  repeat match goal with
  | |- context [if ?b then _ else _] => destruct b
  end;
    try (apply bind_returns_one_item; intros; apply search_reply_one_item);
    try apply get_document_content_one_item.
  red; simpl. now eexists.
Qed.

End DispatchFacts.


(** ** The result normaliser *)

Section NormalizerFacts.
Variable utcoffset : Z -> Z.

(** [format_doc_result] decodes the token, then lays out the six fixed
    entries followed by the optional preview entry. *)
Lemma format_doc_result_eq doc ip :
  format_doc_result utcoffset doc ip
  = obind (py_int (str_drop 1 (mtime doc))) (fun seconds =>
      obind (fromtimestamp utcoffset seconds) (fun dt =>
        Ok (base_record doc (strftime dt) ++ preview_entry ip doc)%list)).
Proof.
  unfold format_doc_result, preview_entry, base_record.
  destruct (py_int _) as [seconds|e]; [|reflexivity]; simpl.
  destruct (fromtimestamp _ _) as [dt|e]; [|reflexivity]; simpl.
  destruct (truthy ip), (abstract doc); reflexivity.
Qed.

Lemma format_doc_result_inv doc ip hit :
  format_doc_result utcoffset doc ip = Ok hit ->
  exists seconds dt,
    py_int (str_drop 1 (mtime doc)) = Ok seconds
    /\ fromtimestamp utcoffset seconds = Ok dt
    /\ hit = (base_record doc (strftime dt) ++ preview_entry ip doc)%list.
Proof.
  rewrite format_doc_result_eq.
  destruct (py_int _) as [seconds|e] eqn:Hs; [|discriminate]; simpl.
  destruct (fromtimestamp _ _) as [dt|e] eqn:Hdt; [|discriminate]; simpl.
  intros [= <-]. now exists seconds, dt.
Qed.

Lemma preview_lookup doc ip readable :
  lookup_key "preview" (base_record doc readable ++ preview_entry ip doc)
  = if truthy ip
    then option_map (fun a => JStr (str_take 300 a)) (abstract doc)
    else None.
Proof.
  unfold preview_entry.
  destruct (truthy ip), (abstract doc); reflexivity.
Qed.

Lemma format_doc_result_preview doc ip hit :
  format_doc_result utcoffset doc ip = Ok hit ->
  lookup_key "preview" hit
  = if truthy ip
    then option_map (fun a => JStr (str_take 300 a)) (abstract doc)
    else None.
Proof.
  intros (seconds & dt & _ & _ & ->)%format_doc_result_inv.
  apply preview_lookup.
Qed.

End NormalizerFacts.

(** ** Decimal tokens *)

Section TokenFacts.

Lemma ulen_nonneg d : 0 <= ulen d.
Proof. unfold ulen. lia. Qed.

Lemma ulen_cons d d' :
  Decimal.nb_digits d' = S (Decimal.nb_digits d) -> ulen d' = 1 + ulen d.
Proof. unfold ulen. intros ->. lia. Qed.

Lemma scan_digits_uint d : forall acc n,
  scan_digits (NilEmpty.string_of_uint d) acc n false
  = Some (uint_val d acc, n + ulen d, EmptyString).
Proof.
  induction d; intros acc n;
    [simpl; unfold ulen; simpl; now rewrite Z.add_0_r|..];
    rewrite (ulen_cons d) by reflexivity;
    simpl NilEmpty.string_of_uint; simpl scan_digits; simpl uint_val;
    rewrite IHd; do 3 f_equal; lia.
Qed.

Lemma uint_val_pos d : forall acc : positive,
  uint_val d (Zpos acc) = Zpos (Pos.of_uint_acc d acc).
Proof.
  induction d; intros acc; simpl; try reflexivity;
    rewrite <- IHd; f_equal; lia.
Qed.

Lemma uint_val_0 d : uint_val d 0 = Z.of_N (Pos.of_uint d).
Proof.
  induction d; simpl; try reflexivity; try exact IHd;
    apply (uint_val_pos d).
Qed.

Lemma uint_val_lower d : forall acc,
  0 <= acc -> acc * 10 ^ ulen d <= uint_val d acc.
Proof.
  unfold ulen.
  induction d; intros acc Hacc; simpl uint_val; simpl Decimal.nb_digits;
    [simpl; lia|..];
    rewrite Nat2Z.inj_succ, Z.pow_succ_r by lia;
    (etransitivity; [|apply IHd; lia]);
    pose proof (Z.pow_nonneg 10 (Z.of_nat (Decimal.nb_digits d))); nia.
Qed.

Lemma to_uint_normal p : Pos.to_uint p = Decimal.unorm (Pos.to_uint p).
Proof.
  rewrite <- Unsigned.to_of, Unsigned.of_to. reflexivity.
Qed.

Lemma to_uint_head p l : Pos.to_uint p <> Decimal.D0 l.
Proof.
  intros H. pose proof (to_uint_normal p) as Hn.
  unfold Decimal.unorm in Hn.
  destruct (Decimal.nzhead (Pos.to_uint p)) eqn:Hz.
  - apply (Unsigned.to_uint_nonzero p). exact Hn.
  - rewrite H in Hn. injection Hn as ->.
    exact (nzhead_nonzero _ _ Hz).
  - rewrite Hn in H; discriminate H.
  - rewrite Hn in H; discriminate H.
  - rewrite Hn in H; discriminate H.
  - rewrite Hn in H; discriminate H.
  - rewrite Hn in H; discriminate H.
  - rewrite Hn in H; discriminate H.
  - rewrite Hn in H; discriminate H.
  - rewrite Hn in H; discriminate H.
  - rewrite Hn in H; discriminate H.
Qed.

(** Digits of a positive number: fewer than [k] when the number is below [10 ^ k]. *)
Lemma to_uint_len p k :
  0 <= k -> Zpos p < 10 ^ k -> ulen (Pos.to_uint p) <= k.
Proof.
  intros Hk Hp.
  pose proof (uint_val_0 (Pos.to_uint p)) as Hv.
  rewrite Unsigned.of_to in Hv. simpl in Hv.
  pose proof (to_uint_head p) as Hh.
  pose proof (Unsigned.to_uint_nonnil p) as Hn.
  destruct (Pos.to_uint p) as [|l|l|l|l|l|l|l|l|l|l] eqn:Hd;
    [congruence|now destruct (Hh l)|..];
    simpl uint_val in Hv;
    match type of Hv with
    | uint_val l ?a = _ =>
        pose proof (uint_val_lower l a ltac:(lia)) as Hlow
    end;
    rewrite Hv in Hlow;
    assert (Hlt : 10 ^ ulen l < 10 ^ k)
      by (pose proof (Z.pow_pos_nonneg 10 (ulen l) ltac:(lia) (ulen_nonneg l)); nia);
    apply Z.pow_lt_mono_r_iff in Hlt; try lia;
    unfold ulen in *; simpl Decimal.nb_digits; lia.
Qed.

Lemma string_of_uint_nonnil d :
  d <> Decimal.Nil ->
  NilZero.string_of_uint d = NilEmpty.string_of_uint d.
Proof. destruct d; intros H; [congruence|reflexivity..]. Qed.

(** [int] on a run of digits that does not start the string with a sign. *)
Lemma py_int_uint sign d (s : string) :
  d <> Decimal.Nil ->
  ulen d <= max_str_digits ->
  split_sign (lstrip s) = (sign, NilEmpty.string_of_uint d) ->
  py_int s = Ok (sign * uint_val d 0).
Proof.
  intros Hn Hlen Hs. unfold py_int. rewrite Hs.
  assert (Hu : starts_with_underscore (NilEmpty.string_of_uint d) = false)
    by (destruct d; reflexivity || congruence).
  rewrite Hu, scan_digits_uint.
  destruct (Z.ltb_spec max_str_digits (0 + ulen d)) as [H|_]; [lia|].
  assert (Hpos : 0 < ulen d).
  { unfold ulen. destruct d; simpl; try lia. congruence. }
  destruct (Z.eqb_spec (0 + ulen d) 0) as [H|_]; [lia|].
  reflexivity.
Qed.

Lemma split_sign_uint d :
  d <> Decimal.Nil ->
  split_sign (lstrip (NilEmpty.string_of_uint d))
  = (1, NilEmpty.string_of_uint d).
Proof. destruct d; intros H; [congruence|reflexivity..]. Qed.

Lemma split_sign_minus_uint d :
  split_sign (lstrip (String "-" (NilEmpty.string_of_uint d)))
  = (-1, NilEmpty.string_of_uint d).
Proof. reflexivity. Qed.

(** [int(str(z))] gives [z] back, up to the digit limit. *)
Lemma py_int_str_of_Z z :
  - 10 ^ 4300 < z < 10 ^ 4300 -> py_int (str_of_Z z) = Ok z.
Proof.
  intros Hz. unfold str_of_Z.
  assert (Hk : 0 <= 4300) by (intros H; discriminate H).
  destruct z as [|p|p]; [reflexivity| |];
    pose proof (Unsigned.to_uint_nonnil p) as Hn;
    [pose proof (to_uint_len p 4300 Hk (proj2 Hz)) as Hlen
    |pose proof (to_uint_len p 4300 Hk
                   (proj2 (Z.opp_lt_mono (Zpos p) (10 ^ 4300)) (proj1 Hz))) as Hlen];
    pose proof (uint_val_0 (Pos.to_uint p)) as Hv;
    rewrite Unsigned.of_to in Hv; simpl Z.of_N in Hv;
    simpl Z.to_int; unfold NilZero.string_of_int;
    rewrite (string_of_uint_nonnil _ Hn).
  - rewrite (py_int_uint 1 (Pos.to_uint p)); auto using split_sign_uint.
    rewrite Hv. reflexivity.
  - rewrite (py_int_uint (-1) (Pos.to_uint p));
      auto using split_sign_minus_uint.
    rewrite Hv. reflexivity.
Qed.

Lemma all_chars_lstrip P s :
  (forall c, is_space c = true -> P c = true) ->
  all_chars P (lstrip s) = true -> all_chars P s = true.
Proof.
  intros HP. induction s as [|c r IH]; simpl; [auto|].
  destruct (is_space c) eqn:Hc; [|auto].
  intros H. rewrite (HP c Hc). simpl. auto.
Qed.

Lemma lstrip_empty s : lstrip s = EmptyString -> all_chars is_space s = true.
Proof.
  induction s as [|c r IH]; simpl; [auto|].
  destruct (is_space c) eqn:Hc; [simpl; auto|discriminate].
Qed.

Lemma all_chars_impl (P Q : ascii -> bool) s :
  (forall c, P c = true -> Q c = true) ->
  all_chars P s = true -> all_chars Q s = true.
Proof.
  intros H. induction s as [|c r IH]; simpl; [auto|].
  intros [Hc Hr]%andb_prop. rewrite (H c Hc). simpl. auto.
Qed.

Lemma scan_digits_chars P s : forall acc n b v dg rest,
  (forall c, is_digit c = true -> P c = true) ->
  P "_"%char = true ->
  scan_digits s acc n b = Some (v, dg, rest) ->
  all_chars P rest = true -> all_chars P s = true.
Proof.
  induction s as [|c r IH]; intros acc n b v dg rest Hd Hu; simpl.
  - destruct b; [discriminate|]. now intros [= <- <- <-].
  - destruct (is_digit c) eqn:Hc.
    + intros Hs Hr. rewrite (Hd c Hc). simpl. eapply IH; eauto.
    + destruct (Ascii.eqb_spec c "_") as [->|Hne].
      * destruct b; [discriminate|].
        intros Hs Hr. rewrite Hu. simpl. eapply IH; eauto.
      * destruct b; [discriminate|]. now intros [= <- <- <-].
Qed.

(** What [int] accepts consists of digits, white space, signs and
    underscores only, and is not empty. *)
Lemma py_int_ok_chars s z :
  py_int s = Ok z -> all_chars literal_char s = true /\ s <> EmptyString.
Proof.
  intros H. split; [|intros ->; discriminate H].
  revert H. unfold py_int.
  destruct (split_sign (lstrip s)) as [sign body] eqn:Hs.
  destruct (starts_with_underscore body); [discriminate|].
  destruct (scan_digits body 0 0 false) as [[[v dg] rest]|] eqn:Hscan;
    [|discriminate].
  destruct (max_str_digits <? dg); [discriminate|].
  destruct (dg =? 0); [discriminate|].
  destruct (lstrip rest) eqn:Hrest; [|discriminate]. intros _.
  assert (Hbody : all_chars literal_char body = true).
  { eapply scan_digits_chars; [| |exact Hscan|].
    - intros c Hc. unfold literal_char. now rewrite Hc.
    - reflexivity.
    - eapply all_chars_impl; [|exact (lstrip_empty _ Hrest)].
      intros c Hc. unfold literal_char. rewrite Hc.
      now rewrite orb_true_r. }
  apply all_chars_lstrip.
  { intros c Hc. unfold literal_char. rewrite Hc. now rewrite orb_true_r. }
  unfold split_sign in Hs.
  destruct (lstrip s) as [|c r]; [now injection Hs as <- <-|].
  destruct (Ascii.eqb_spec c "+") as [->|H1];
    [injection Hs as <- <-; exact Hbody|].
  destruct (Ascii.eqb_spec c "-") as [->|H2];
    [injection Hs as <- <-; exact Hbody|].
  injection Hs as <- <-. exact Hbody.
Qed.

Lemma py_int_raises_value_error s e : py_int s = Raise e -> kind e = ValueError.
Proof.
  unfold py_int.
  destruct (split_sign (lstrip s)) as [sign body].
  destruct (starts_with_underscore body); [now intros [= <-]|].
  destruct (scan_digits body 0 0 false) as [[[v dg] rest]|];
    [|now intros [= <-]].
  destruct (max_str_digits <? dg); [now intros [= <-]|].
  destruct (dg =? 0); [now intros [= <-]|].
  destruct (lstrip rest); [discriminate|now intros [= <-]].
Qed.


End TokenFacts.

(** ** The calendar *)

(** Day numbers of the years 1 to 9999. *)
Lemma civil_from_days_range days :
  -719162 <= days <= 2932896 ->
  let '(y, m, d) := civil_from_days days in
  1 <= y <= 9999 /\ 1 <= m <= 12 /\ 1 <= d <= 31
  /\ (0 <= days -> 1970 <= y).
Proof.
  intros H. unfold civil_from_days.
  destruct (_ <? 10) eqn:Hm; destruct (_ <=? 2) eqn:Hm2; cbv zeta;
    try apply Z.ltb_lt in Hm; try apply Z.ltb_ge in Hm;
    try apply Z.leb_le in Hm2; try apply Z.leb_gt in Hm2;
    Z.div_mod_to_equations; lia.
Qed.

(** Day numbers outside the years 1 to 9999. *)
Lemma civil_from_days_outside days :
  days < -719162 \/ 2932896 < days ->
  let '(y, m, d) := civil_from_days days in y < 1 \/ 9999 < y.
Proof.
  intros H. unfold civil_from_days.
  destruct (_ <? 10) eqn:Hm; destruct (_ <=? 2) eqn:Hm2; cbv zeta;
    try apply Z.ltb_lt in Hm; try apply Z.ltb_ge in Hm;
    try apply Z.leb_le in Hm2; try apply Z.leb_gt in Hm2;
    Z.div_mod_to_equations; lia.
Qed.

(** A C [int] holds the years of the calendar as they are, and what it
    makes of any other year [localtime_r] can tell is no year of the
    calendar either. *)
Lemma wrap_int_small z : - 2 ^ 31 <= z < 2 ^ 31 -> wrap_int z = z.
Proof.
  intros H. unfold wrap_int.
  rewrite Z.mod_small; change (2 ^ 32) with (2 * 2 ^ 31); lia.
Qed.

Lemma wrap_int_outside y :
  - 2 ^ 31 <= y - 1900 < 2 ^ 31 -> y < 1 \/ 9999 < y ->
  wrap_int y < 1 \/ 9999 < wrap_int y.
Proof.
  intros Hfit Hout.
  destruct (Z.lt_ge_cases y (2 ^ 31)) as [Hs|Hb].
  - rewrite wrap_int_small; lia.
  - left. unfold wrap_int.
    assert (H : (y + 2 ^ 31) mod 2 ^ 32 = y - 2 ^ 31).
    { symmetry. apply (Z.mod_unique_pos _ _ 1).
      - change (2 ^ 32) with (2 * 2 ^ 31). lia.
      - change (2 ^ 32) with (2 * 2 ^ 31). lia. }
    rewrite H. lia.
Qed.

Section ClockFacts.
Variable utcoffset : Z -> Z.

(** An instant whose wall clock shows a time of the years 1 to 9999. *)
Lemma localtime_in_range u :
  first_second <= local_seconds utcoffset u <= last_second ->
  exists dt,
    localtime utcoffset u = Ok dt
    /\ check_year dt = Ok tt
    /\ 1 <= year dt <= 9999 /\ 1 <= month dt <= 12 /\ 1 <= day dt <= 31
    /\ 0 <= hour dt <= 23 /\ 0 <= minute dt <= 59 /\ 0 <= second dt <= 59
    /\ (0 <= local_seconds utcoffset u -> 1970 <= year dt).
Proof.
  unfold first_second, last_second. intros Hl. unfold localtime.
  set (l := local_seconds utcoffset u) in *.
  pose proof (civil_from_days_range (l / 86400)) as Hr.
  destruct (civil_from_days (l / 86400)) as [[y m] d].
  assert (Hdays : -719162 <= l / 86400 <= 2932896)
    by (Z.div_mod_to_equations; lia).
  destruct (Hr Hdays) as (Hy & Hm & Hd & H70).
  destruct (Z.ltb_spec (y - 1900) (- 2 ^ 31)) as [H|_]; [lia|].
  destruct (Z.leb_spec (2 ^ 31) (y - 1900)) as [H|_]; [lia|].
  rewrite (wrap_int_small y) by lia.
  eexists; split; [reflexivity|]. unfold check_year; simpl.
  destruct (Z.ltb_spec y 1) as [H|_]; [lia|].
  destruct (Z.ltb_spec 9999 y) as [H|_]; [lia|]. simpl.
  split; [reflexivity|].
  repeat split; try lia; try (Z.div_mod_to_equations; lia);
    try (intros H0; apply H70; Z.div_mod_to_equations; lia).
Qed.

Lemma local_in_range u :
  - 2 ^ 63 <= u < 2 ^ 63 ->
  first_second <= local_seconds utcoffset u <= last_second ->
  local utcoffset u = Ok (local_seconds utcoffset u).
Proof.
  intros Hu Hl. unfold local.
  destruct (Z.ltb_spec u (- 2 ^ 63)) as [H|_]; [lia|].
  destruct (Z.leb_spec (2 ^ 63) u) as [H|_]; [lia|]. simpl.
  destruct (localtime_in_range u Hl) as (dt & Hdt & Hchk & _).
  rewrite Hdt; simpl. rewrite Hchk. reflexivity.
Qed.

(** With offsets of at most a day, [fromtimestamp] accepts every instant
    from three days after the first second of year 1 to one day before the
    last second of year 9999, and gives its local time. *)
Lemma fromtimestamp_in_range t :
  (forall u, -86400 <= utcoffset u <= 86400) ->
  first_second + 259200 <= t <= last_second - 86400 ->
  exists dt,
    fromtimestamp utcoffset t = Ok dt
    /\ localtime utcoffset t = Ok dt
    /\ 1 <= year dt <= 9999 /\ 1 <= month dt <= 12 /\ 1 <= day dt <= 31
    /\ 0 <= hour dt <= 23 /\ 0 <= minute dt <= 59 /\ 0 <= second dt <= 59
    /\ (0 <= local_seconds utcoffset t -> 1970 <= year dt).
Proof.
  unfold first_second, last_second. intros Hoff Ht.
  assert (Hin : forall u, t - 172800 <= u <= t ->
            - 2 ^ 63 <= u < 2 ^ 63
            /\ first_second <= local_seconds utcoffset u <= last_second).
  { intros u Hu. unfold first_second, last_second, local_seconds.
    pose proof (Hoff u). lia. }
  destruct (Hin t ltac:(lia)) as [Ht63 Hlt].
  destruct (localtime_in_range t Hlt) as (dt & Hdt & Hchk & Hrange).
  exists dt. split; [|split; [exact Hdt|exact Hrange]].
  unfold fromtimestamp.
  destruct (Z.ltb_spec t (- 2 ^ 63)) as [H|_]; [lia|].
  destruct (Z.leb_spec (2 ^ 63) t) as [H|_]; [lia|]. simpl.
  rewrite Hdt; simpl. rewrite Hchk; simpl.
  destruct (Hin (t - 86400) ltac:(lia)) as [Hp63 Hpl].
  rewrite (local_in_range _ Hp63 Hpl); simpl.
  set (transition := local_seconds utcoffset t
                     - local_seconds utcoffset (t - 86400) - 86400).
  destruct (Z.ltb_spec transition 0) as [Hneg|_]; [|reflexivity].
  assert (Htr : -172800 <= transition).
  { subst transition. unfold local_seconds.
    pose proof (Hoff t). pose proof (Hoff (t - 86400)). lia. }
  destruct (Hin (t + transition) ltac:(lia)) as [Hq63 Hql].
  rewrite (local_in_range _ Hq63 Hql). reflexivity.
Qed.

End ClockFacts.

(** ** Worked cases from the specification *)

Example date_scenario :
  obind (search_by_date_args since_args) (fun p => Ok (expression p))
  = Ok (VStr "todo date:2025-01-01/").
Proof. vm_compute. reflexivity. Qed.

Example filetype_scenario :
  obind (search_by_filetype_args pdf_args) (fun p => Ok (expression p))
  = Ok (VStr "yubikey mime:pdf").
Proof. vm_compute. reflexivity. Qed.

Example recent_scenario :
  obind (list_recent_files_args ∅) (fun p => Ok (expression p))
  = Ok (VStr "date:7d/").
Proof. vm_compute. reflexivity. Qed.

Example content_scenario :
  handle_call_tool utc demo_fs (Some two_hits) "get_document_content"
    x_args idle
  = (Ok [text_item
           (Dumps (JDict [ ("url", JStr "file:///tmp/x.txt");
                           ("filepath", JStr "/tmp/x.txt");
                           ("content", JStr "hello");
                           ("truncated", JBool false) ]))],
     idle).
Proof. vm_compute. reflexivity. Qed.

Example readable_scenario :
  obind (fromtimestamp utc 1700000000) (fun dt => Ok (strftime dt))
  = Ok "2023-11-14 22:13:20".
Proof. vm_compute. reflexivity. Qed.

Example missing_file_scenario :
  fst (handle_call_tool utc demo_fs (Some two_hits) "get_document_content"
         {[ "url" := VStr "/nope" ]} idle)
  = Ok [text_item
          (Plain "Error reading file: [Errno 2] No such file or directory: '/nope'")].
Proof. vm_compute. reflexivity. Qed.

(** ** Properties of the specification *)

(** *** Missing connection *)

(** C1, as stated, fails on [get_document_content]: the file [/tmp/x.txt]
    is readable, yet without a connection handle the invocation answers the
    fixed unavailable text and not the file's content envelope. *)
Lemma C1_content_blocked_without_connection :
  demo_fs (filepath_of "file:///tmp/x.txt") = Ok "hello"
  /\ handle_call_tool utc demo_fs None "get_document_content" x_args idle
     = (Ok unavailable, idle)
  /\ envelope_of
       (handle_call_tool utc demo_fs None "get_document_content" x_args idle)
     = None
  /\ envelope_of
       (handle_call_tool utc demo_fs (Some two_hits) "get_document_content"
          x_args idle)
     = Some (content_envelope "file:///tmp/x.txt" "/tmp/x.txt" "hello").
Proof. vm_compute. repeat split; reflexivity. Qed.

(** C1, amended: when the connection handle is absent, every invocation,
    whatever the operation name and the arguments ([get_document_content]
    and unknown names included), returns the fixed unavailable text as its
    single item, without touching the engine or the filesystem reader. *)
Theorem C1_unavailable_for_every_operation
  (utcoffset : Z -> Z) (open_read : string -> outcome string)
  (name : string) (arguments : gmap string pyval) (w : world) :
  handle_call_tool utcoffset open_read None name arguments w
  = (Ok [text_item
           (Plain "Error: Recoll database not available. Check configuration.")],
     w).
Proof. reflexivity. Qed.

(** *** Unknown operation names *)

(** C5, as stated, fails when the connection handle is absent: a name
    outside the registry is then answered with the unavailable text, not
    with an unknown-operation message. *)
Lemma C5_unknown_name_without_connection :
  existsb (String.eqb "no_such_tool") tool_names = false
  /\ handle_call_tool utc demo_fs None "no_such_tool" ∅ idle
     = (Ok unavailable, idle)
  /\ unavailable <> unknown_tool "no_such_tool".
Proof.
  split; [reflexivity|]. split; [reflexivity|]. discriminate.
Qed.

(** C5, amended: for an operation name outside the registry no engine call
    occurs in either connection state (the recorded calls and the cursor
    are unchanged) and the response is a single text item; with the
    connection established it reads [Unknown tool: <name>], with the
    connection absent it is the unavailable text. *)
Theorem C5_unknown_name_no_engine_call
  (utcoffset : Z -> Z) (open_read : string -> outcome string)
  (db : option Db) (name : string) (arguments : gmap string pyval)
  (w : world) :
  ~ In name tool_names ->
  handle_call_tool utcoffset open_read db name arguments w
  = (Ok [text_item
           (Plain (match db with
                   | Some _ => "Unknown tool: " ++ name
                   | None =>
                       "Error: Recoll database not available. Check configuration."
                   end))],
     w).
Proof.
  intros Hn. destruct db as [db|]; [|reflexivity].
  unfold handle_call_tool, try_except.
  now rewrite dispatch_unknown.
Qed.

(** The amended C5 at work: an unknown name on a live connection. *)
Lemma C5_unknown_name_witness :
  ~ In "no_such_tool" tool_names
  /\ handle_call_tool utc demo_fs (Some two_hits) "no_such_tool" todo_args idle
     = (Ok [text_item (Plain "Unknown tool: no_such_tool")], idle).
Proof.
  assert (Hn : ~ In "no_such_tool" tool_names).
  { simpl. intros H.
    repeat (destruct H as [H|H]; [discriminate H|]). exact H. }
  split; [exact Hn|].
  exact (C5_unknown_name_no_engine_call utc demo_fs (Some two_hits)
           "no_such_tool" todo_args idle Hn).
Defined.

(** *** One text item per invocation *)

(** C9: every invocation of the dispatcher, for any operation name (known
    or not), any argument object (required arguments present or not), any
    connection state, any behaviour of the engine stub ([query()] or
    [execute] raising, a hit stream shorter than announced, any exception
    at exhaustion) and any outcome of reading the file, returns normally
    with exactly one content item, of type text: no exception leaves
    [handle_call_tool]. *)
Theorem C9_exactly_one_text_item
  (utcoffset : Z -> Z) (open_read : string -> outcome string)
  (db : option Db) (name : string) (arguments : gmap string pyval)
  (w : world) :
  exists (t : text_src) (w' : world),
    handle_call_tool utcoffset open_read db name arguments w
    = (Ok [ {| type := "text"; text := t |} ], w').
Proof.
  destruct db as [db|]; [|now eexists _, _].
  unfold handle_call_tool, try_except.
  pose proof (dispatch_one_item utcoffset open_read db name arguments w) as H.
  red in H.
  destruct (dispatch utcoffset open_read db name arguments w)
    as [[items|e] w']; simpl in H.
  - destruct H as [t ->]. now exists t, w'.
  - now eexists _, _.
Qed.

(** *** Preview truncation *)



(** *** The preview flag touches the preview entry only *)

(** C10: for every raw hit and any two values of the preview flag, the
    normaliser either raises the same exception under both or returns two
    records whose [filename], [url], [mimetype], [size], [mtime] and
    [mtime_readable] entries are identical, in the same order; the records
    differ at most in the [preview] entry. *)
Theorem C10_flag_only_affects_preview
  (utcoffset : Z -> Z) (doc : Doc) (ip1 ip2 : pyval) :
  match format_doc_result utcoffset doc ip1,
        format_doc_result utcoffset doc ip2 with
  | Ok hit1, Ok hit2 =>
      Forall (fun k => lookup_key k hit1 = lookup_key k hit2
                       /\ has_key k hit1 = true)
        [ "filename"; "url"; "mimetype"; "size"; "mtime"; "mtime_readable" ]
      /\ filter (fun kv => negb (String.eqb (fst kv) "preview")) hit1
         = filter (fun kv => negb (String.eqb (fst kv) "preview")) hit2
      /\ lookup_key "filename" hit1 = Some (JStr (filename doc))
      /\ lookup_key "url" hit1 = Some (JStr (url doc))
      /\ lookup_key "mimetype" hit1 = Some (JStr (mimetype doc))
      /\ lookup_key "size" hit1 = Some (JStr (fbytes doc))
      /\ lookup_key "mtime" hit1 = Some (JStr (mtime doc))
  | Raise e1, Raise e2 => e1 = e2
  | _, _ => False
  end.
Proof.
  rewrite !format_doc_result_eq.
  destruct (py_int _) as [seconds|e]; [|reflexivity]; simpl.
  destruct (fromtimestamp _ _) as [dt|e]; [|reflexivity]; simpl.
  unfold preview_entry.
  destruct (truthy ip1), (truthy ip2), (abstract doc);
    (split; [repeat constructor|]); repeat split.
Qed.

Example flag_on_off :
  option_map has_preview
    (match format_doc_result utc note_doc (VBool true) with
     | Ok hit => Some (JDict hit) | Raise _ => None end)
  = Some true
  /\ option_map has_preview
       (match format_doc_result utc note_doc (VBool false) with
        | Ok hit => Some (JDict hit) | Raise _ => None end)
     = Some false.
Proof. vm_compute. split; reflexivity. Qed.

(** *** Previews in the date and filetype searches *)

Lemma date_and_filetype_args_shape name arguments p :
  name = "search_by_date" \/ name = "search_by_filetype" ->
  search_family_args name arguments = Some (Ok p) ->
  include_preview p = VBool true /\ echo_key p = "query".
Proof.
  intros [-> | ->]; cbn [search_family_args String.eqb Ascii.eqb Bool.eqb];
    intros [= H]; revert H.
  - unfold search_by_date_args.
    destruct (getitem arguments "query") as [q|e]; [|discriminate]; simpl.
    destruct (add_str _ _) as [full|e]; [|discriminate]; simpl.
    now intros [= <-].
  - unfold search_by_filetype_args.
    destruct (getitem arguments "query") as [q|e]; [|discriminate]; simpl.
    destruct (getitem arguments "filetype") as [f|e]; [|discriminate]; simpl.
    now intros [= <-].
Qed.

(** What a successful search-family response was built from. *)
Lemma search_response_inv utcoffset open_read db name arguments o w env w' :
  search_family_args name arguments = Some o ->
  handle_call_tool utcoffset open_read (Some db) name arguments w
  = (Ok [text_item (Dumps env)], w') ->
  exists p nres stream b hits,
    o = Ok p
    /\ execute_answer db (expression p) = Ok (nres, stream)
    /\ range_min (max_results p) nres = Ok b
    /\ Forall2 (normalized utcoffset (include_preview p))
         (firstn (Z.to_nat b) stream) hits
    /\ (Z.to_nat b <= length stream)%nat
    /\ env = search_envelope p nres (map JDict hits).
Proof.
  intros Ho. unfold handle_call_tool, try_except.
  rewrite (dispatch_search _ _ _ _ _ _ Ho). unfold bind, lift.
  destruct o as [p|e]; [|discriminate].
  destruct (search_reply utcoffset db p w) as [[items|e] w1] eqn:Hr;
    [|discriminate].
  intros [= -> ->].
  apply search_reply_inv in Hr
    as (nres & stream & b & hits & He & Hb & HF & Hlen & [= ->]).
  exists p, nres, stream, b, hits. repeat split; assumption || reflexivity.
Qed.

(** C2, as stated, fails: both operations call the normaliser with its
    default flag, so a raw hit that has an abstract is returned with a
    preview. *)
Lemma C2_date_and_filetype_results_carry_previews :
  option_map (fun env => map has_preview (results_of env))
    (envelope_of
       (handle_call_tool utc demo_fs (Some two_hits) "search_by_date"
          since_args idle))
  = Some [true; true]
  /\ option_map (fun env => map has_preview (results_of env))
       (envelope_of
          (handle_call_tool utc demo_fs (Some two_hits) "search_by_filetype"
             pdf_args idle))
     = Some [true; true].
Proof. vm_compute. split; reflexivity. Qed.

(** C2, amended: in every envelope returned by search-by-date or by
    search-by-filetype, the results are the normalised leading hits of the
    engine's stream, and each of them has a preview entry exactly when its
    raw hit has an abstract, holding the first 300 characters of it. *)
Theorem C2_preview_present_iff_abstract
  (utcoffset : Z -> Z) (open_read : string -> outcome string)
  (db : Db) (name : string) (arguments : gmap string pyval)
  (w w' : world) (env : json) :
  name = "search_by_date" \/ name = "search_by_filetype" ->
  handle_call_tool utcoffset open_read (Some db) name arguments w
  = (Ok [text_item (Dumps env)], w') ->
  exists (p : search_params) (nres : Z) (stream : list Doc)
         (hits : list (list (string * json))),
    search_family_args name arguments = Some (Ok p)
    /\ execute_answer db (expression p) = Ok (nres, stream)
    /\ results_of env = map JDict hits
    /\ Forall2
         (fun doc hit =>
            lookup_key "preview" hit
            = option_map (fun a => JStr (str_take 300 a)) (abstract doc))
         (firstn (length hits) stream) hits.
Proof.
  intros Hname Hrun.
  assert (Ho : exists o, search_family_args name arguments = Some o).
  { destruct Hname as [-> | ->]; now eexists. }
  destruct Ho as [o Ho].
  destruct (search_response_inv _ _ _ _ _ _ _ _ _ Ho Hrun)
    as (p & nres & stream & b & hits & -> & He & Hb & HF & Hlen & ->).
  destruct (date_and_filetype_args_shape _ _ _ Hname Ho) as [Hip Hkey].
  exists p, nres, stream, hits. repeat split; try assumption.
  - unfold results_of, search_envelope, field. rewrite Hkey. reflexivity.
  - pose proof (Forall2_length_eq _ _ _ HF) as Hl.
    rewrite length_take in Hl.
    replace (length hits) with (Z.to_nat b) by lia.
    clear Hl. rewrite Hip in HF.
    eapply List.Forall2_impl; [|exact HF].
    intros doc hit Hn. red in Hn.
    now rewrite (format_doc_result_preview _ _ _ _ Hn).
Qed.

(** The amended C2 at work on the run [since_run]. *)
Lemma C2_preview_witness :
  exists (p : search_params) (nres : Z) (stream : list Doc)
         (hits : list (list (string * json))),
    search_family_args "search_by_date" since_args = Some (Ok p)
    /\ execute_answer two_hits (expression p) = Ok (nres, stream)
    /\ results_of since_env = map JDict hits
    /\ Forall2
         (fun doc hit =>
            lookup_key "preview" hit
            = option_map (fun a => JStr (str_take 300 a)) (abstract doc))
         (firstn (length hits) stream) hits.
Proof.
  exact (C2_preview_present_iff_abstract utc demo_fs two_hits
           "search_by_date" since_args idle (snd since_run) since_env
           (or_introl eq_refl) eq_refl).
Defined.

(** *** The fetch loop and the counts of the envelope *)

(** C3, as stated, fails on under-delivery: the engine reports two matches
    and its cursor is exhausted after one; the loop asks for a second hit
    and the response is the error text, not an envelope counting one
    result. *)
Lemma C3_under_delivery_is_an_error :
  execute_answer short_db (VStr "todo") = Ok (2, [note_doc])
  /\ handle_call_tool utc demo_fs (Some short_db) "search_filesystem"
       todo_args idle
     = (Ok [text_item (Plain "Error executing search: ")],
        {| calls := [CallQuery; CallExecute (VStr "todo");
                     CallFetchone; CallFetchone];
           cursor := [] |})
  /\ envelope_of
       (handle_call_tool utc demo_fs (Some short_db) "search_filesystem"
          todo_args idle)
     = None.
Proof. vm_compute. repeat split; reflexivity. Qed.

(** C3, amended: for every search-family operation with the connection
    established, every maxResults [m >= 0] and every reported total
    [nres >= 0], the loop issues fetches up to [min m nres]. If the engine
    delivers that many hits (each accepted by the normaliser), exactly
    [min m nres] fetches are made and the envelope has returnedResults
    [= min m nres = min (min m nres) hitsProduced = len results]. If the
    engine reports exhaustion earlier, one more fetch than there are hits
    is made and the response is the text [Error executing search: ]
    followed by the message of the engine's exhaustion exception. *)
Theorem C3_fetch_count_and_exhaustion
  (utcoffset : Z -> Z) (open_read : string -> outcome string)
  (db : Db) (name : string) (arguments : gmap string pyval)
  (p : search_params) (m nres : Z) (stream : list Doc) (w : world) :
  search_family_args name arguments = Some (Ok p) ->
  max_results p = VInt m ->
  0 <= m ->
  query_answer db = Ok tt ->
  execute_answer db (expression p) = Ok (nres, stream) ->
  0 <= nres ->
  Forall (normalizes utcoffset (include_preview p))
    (firstn (Z.to_nat (Z.min m nres)) stream) ->
  if Z.min m nres <=? Z.of_nat (length stream) then
    exists results : list json,
      handle_call_tool utcoffset open_read (Some db) name arguments w
      = (Ok [text_item
               (Dumps (JDict [ (echo_key p, of_pyval (echo p));
                               ("total_results", JInt nres);
                               ("returned_results", JInt (Z.min m nres));
                               ("results", JList results) ]))],
         after_fetches (Z.to_nat (Z.min m nres)) (executed p stream w))
      /\ Z.of_nat (length results) = Z.min m nres
      /\ Z.min m nres = Z.min (Z.min m nres) (Z.of_nat (length stream))
      /\ Forall2
           (fun doc r =>
              exists hit,
                format_doc_result utcoffset doc (include_preview p) = Ok hit
                /\ r = JDict hit)
           (firstn (Z.to_nat (Z.min m nres)) stream) results
  else
    handle_call_tool utcoffset open_read (Some db) name arguments w
    = (Ok [text_item (Plain ("Error executing search: " ++ msg (exhausted db)))],
       {| calls := (calls w ++ [CallQuery; CallExecute (expression p)]
                    ++ repeat CallFetchone (S (length stream)))%list;
          cursor := [] |}).
Proof.
  intros Ho Hm Hm0 Hq He Hn0 HF.
  assert (Hr : range_min (max_results p) nres = Ok (Z.min m nres))
    by now rewrite Hm.
  unfold handle_call_tool, try_except.
  rewrite (dispatch_search _ _ _ _ _ _ Ho). unfold bind, lift.
  destruct (Z.leb_spec (Z.min m nres) (Z.of_nat (length stream))) as [Hle|Hgt].
  - destruct (normalizes_all _ _ _ HF) as [hits Hhits].
    assert (Hlen : (Z.to_nat (Z.min m nres) <= length stream)%nat) by lia.
    rewrite (search_reply_delivered _ _ _ _ _ _ _ hits Hq He Hr Hhits Hlen).
    pose proof (Forall2_length_eq _ _ _ Hhits) as Hl.
    rewrite length_take in Hl.
    assert (Hcount : Z.of_nat (length hits) = Z.min m nres) by lia.
    exists (map JDict hits). unfold search_envelope.
    rewrite length_map, Hcount. repeat split.
    + lia.
    + now apply normalized_records.
  - assert (Hlen : (length stream < Z.to_nat (Z.min m nres))%nat) by lia.
    rewrite firstn_all2 in HF by lia.
    rewrite (search_reply_exhausted _ _ _ _ _ _ _ Hq He Hr HF Hlen).
    unfold search_failed, executed; simpl. now rewrite <- app_assoc.
Qed.

(** The amended C3 at work: two matches reported, two delivered. *)
Lemma C3_fetch_count_witness :
  exists results : list json,
    handle_call_tool utc demo_fs (Some two_hits) "search_by_date"
      since_args idle
    = (Ok [text_item
             (Dumps (JDict [ ("query", JStr "todo date:2025-01-01/");
                             ("total_results", JInt 2);
                             ("returned_results", JInt 2);
                             ("results", JList results) ]))],
       {| calls := [CallQuery; CallExecute (VStr "todo date:2025-01-01/");
                    CallFetchone; CallFetchone];
          cursor := [] |})
    /\ Z.of_nat (length results) = 2
    /\ 2 = Z.min 2 2
    /\ Forall2
         (fun doc r =>
            exists hit,
              format_doc_result utc doc (VBool true) = Ok hit
              /\ r = JDict hit)
         [note_doc; note_doc] results.
Proof.
  assert (HF : Forall (normalizes utc (VBool true)) [note_doc; note_doc]).
  { repeat constructor; eexists; vm_compute; reflexivity. }
  exact (C3_fetch_count_and_exhaustion utc demo_fs two_hits "search_by_date"
           since_args since_params 20 2 [note_doc; note_doc] idle
           eq_refl eq_refl ltac:(lia) eq_refl eq_refl ltac:(lia) HF).
Defined.

(** *** The timestamp token *)

Section TokenHandling.
Variable utcoffset : Z -> Z.

(** A hit the normaliser refuses ends the loop in the normaliser's
    exception, wherever it stands among the hits that are fetched. *)
Lemma fetch_loop_refused db ip e doc rest pre : forall n acc w,
  cursor w = (pre ++ doc :: rest)%list ->
  Forall (normalizes utcoffset ip) pre ->
  (length pre < n)%nat ->
  format_doc_result utcoffset doc ip = Raise e ->
  fst (fetch_loop utcoffset db ip n acc w) = Raise e.
Proof.
  induction pre as [|d pre IH]; intros n acc [cs cur] Hcur HF Hn Hd;
    simpl in Hcur; subst cur; (destruct n as [|n]; [simpl in Hn; lia|]);
    simpl; unfold bind at 1, query_fetchone at 1; simpl;
    unfold bind at 1, lift at 1.
  - now rewrite Hd.
  - inversion HF as [|? ? [hit Hhit] HF']; subst. rewrite Hhit.
    apply IH; simpl in *; auto. lia.
Qed.

Lemma search_reply_refused_at db p w nres pre doc rest b e :
  query_answer db = Ok tt ->
  execute_answer db (expression p) = Ok (nres, pre ++ doc :: rest)%list ->
  range_min (max_results p) nres = Ok b ->
  Z.of_nat (length pre) < b ->
  Forall (normalizes utcoffset (include_preview p)) pre ->
  format_doc_result utcoffset doc (include_preview p) = Raise e ->
  fst (search_reply utcoffset db p w) = Raise e.
Proof.
  intros Hq He Hr Hb HF Hd. rewrite search_reply_prefix, Hq, He, Hr.
  pose proof (fetch_loop_refused db (include_preview p) e doc rest pre
                (Z.to_nat b) [] (executed p (pre ++ doc :: rest) w)
                eq_refl HF ltac:(lia) Hd) as Hloop.
  destruct (fetch_loop _ _ _ _ _ _) as [[results|e'] w']; simpl in Hloop;
    [discriminate|]. now inversion Hloop.
Qed.

(** The decimal rendering of an instant well inside the calendar, behind
    any first character, is decoded to the local time of that instant. *)
Lemma token_decodes doc ip c t :
  mtime doc = String c (str_of_Z t) ->
  (forall u, -86400 <= utcoffset u <= 86400) ->
  first_second + 259200 <= t <= last_second - 86400 ->
  exists dt,
    localtime utcoffset t = Ok dt
    /\ format_doc_result utcoffset doc ip
       = Ok (base_record doc (strftime dt) ++ preview_entry ip doc)%list
    /\ 1 <= year dt <= 9999 /\ 1 <= month dt <= 12 /\ 1 <= day dt <= 31
    /\ 0 <= hour dt <= 23 /\ 0 <= minute dt <= 59 /\ 0 <= second dt <= 59
    /\ (0 <= local_seconds utcoffset t -> 1970 <= year dt).
Proof.
  intros Hm Hoff Ht.
  destruct (fromtimestamp_in_range utcoffset t Hoff Ht)
    as (dt & Hdt & Hlt & Hrange).
  exists dt. split; [exact Hlt|]. split; [|exact Hrange].
  rewrite format_doc_result_eq, Hm. simpl str_drop.
  rewrite py_int_str_of_Z.
  - simpl. rewrite Hdt. reflexivity.
  - unfold first_second, last_second in Ht.
    assert (H : 2 ^ 63 <= 10 ^ 4300).
    { transitivity (10 ^ 63).
      - apply Z.pow_le_mono_l. lia.
      - apply Z.pow_le_mono_r; lia. }
    lia.
Qed.

(** A token that decodes to an instant whose wall clock is outside the
    years 1 to 9999 makes the normaliser raise. *)
Lemma token_outside_calendar doc ip t :
  py_int (str_drop 1 (mtime doc)) = Ok t ->
  local_seconds utcoffset t < first_second
  \/ last_second < local_seconds utcoffset t ->
  exists e, format_doc_result utcoffset doc ip = Raise e.
Proof.
  intros Hint Hout. rewrite format_doc_result_eq, Hint. simpl.
  unfold fromtimestamp.
  destruct ((t <? - 2 ^ 63) || (2 ^ 63 <=? t)); [now eexists|].
  unfold localtime.
  pose proof (civil_from_days_outside (local_seconds utcoffset t / 86400))
    as Hciv.
  destruct (civil_from_days (local_seconds utcoffset t / 86400))
    as [[y m] d].
  assert (Hy : y < 1 \/ 9999 < y).
  { apply Hciv. unfold first_second, last_second in Hout.
    Z.div_mod_to_equations; lia. }
  destruct (Z.ltb_spec (y - 1900) (- 2 ^ 31)) as [_|Hlo]; [now eexists|].
  destruct (Z.leb_spec (2 ^ 31) (y - 1900)) as [_|Hhi]; [now eexists|].
  pose proof (wrap_int_outside y ltac:(lia) Hy) as Hw.
  simpl. unfold check_year; simpl.
  destruct (Z.ltb_spec (wrap_int y) 1) as [_|H1]; [now eexists|].
  destruct (Z.ltb_spec 9999 (wrap_int y)) as [_|H2]; [now eexists|]. lia.
Qed.

(** A token whose remainder is empty or holds a character [int] knows
    nothing of makes the normaliser raise [ValueError]. *)
Lemma token_not_a_literal doc ip :
  str_drop 1 (mtime doc) = EmptyString
  \/ all_chars literal_char (str_drop 1 (mtime doc)) = false ->
  exists e,
    format_doc_result utcoffset doc ip = Raise e /\ kind e = ValueError.
Proof.
  intros Hbad. rewrite format_doc_result_eq.
  destruct (py_int (str_drop 1 (mtime doc))) as [t|e] eqn:Hint.
  - apply py_int_ok_chars in Hint as [Hall Hne].
    destruct Hbad as [H|H]; [contradiction|congruence].
  - exists e. split; [reflexivity|].
    exact (py_int_raises_value_error _ _ Hint).
Qed.

End TokenHandling.




Example token_decoded :
  obind (format_doc_result utc note_doc (VBool false))
    (fun hit => Ok (lookup_key "mtime_readable" hit))
  = Ok (Some (JStr "2023-11-14 22:13:20")).
Proof. vm_compute. reflexivity. Qed.

(** Tokens at the edges of what the normaliser accepts, read in UTC:
    white space and a sign around the digits and single underscores
    between them pass; a doubled underscore, the control character U+001C,
    the first day of year 1 and the year 10000 do not. *)
Example tokens_at_the_edges :
  let readable token :=
    match format_doc_result utc (with_mtime note_doc token) (VBool false)
    with
    | Ok hit => lookup_key "mtime_readable" hit
    | Raise e => Some (JStr (msg e))
    end in
  readable "0 +1_000 " = Some (JStr "1970-01-01 00:16:40")
  /\ readable "x-50000000000" = Some (JStr "385-07-25 07:06:40")
  /\ readable "01__0"
     = Some (JStr "invalid literal for int() with base 10: '1__0'")
  /\ readable (String "0" (String (ascii_of_nat 28) "7"))
     = Some (JStr "invalid literal for int() with base 10: '\x1c7'")
  /\ readable "0-62135596800" = Some (JStr "year 0 is out of range")
  /\ readable "0253402300800" = Some (JStr "year 10000 is out of range")
  /\ readable "0100000000000000000"
     = Some (JStr "[Errno 75] Value too large for defined data type").
Proof. vm_compute. repeat split; reflexivity. Qed.

(** *** The date clause *)

(** C6: for every query string and every combination of optional start and
    end dates (a date that is given is a non-empty string, as every
    YYYY-MM-DD date is), the expression search-by-date builds, executes and
    echoes is the query followed by one space and [date:<start>/<end>] when
    both are given, by one space and [date:<start>/] for a start only, by
    one space and [date:/<end>] for an end only, and is the query unchanged
    when neither is given. *)
Theorem C6_date_clause_forms
  (arguments : gmap string pyval) (query : string)
  (start_date end_date : option string) :
  arguments !! "query" = Some (VStr query) ->
  arguments !! "start_date" = option_map VStr start_date ->
  arguments !! "end_date" = option_map VStr end_date ->
  start_date <> Some EmptyString ->
  end_date <> Some EmptyString ->
  exists p : search_params,
    search_by_date_args arguments = Ok p
    /\ echo p = expression p
    /\ expression p
       = VStr (match start_date, end_date with
               | Some s, Some e => query ++ " " ++ "date:" ++ s ++ "/" ++ e
               | Some s, None => query ++ " " ++ "date:" ++ s ++ "/"
               | None, Some e => query ++ " " ++ "date:/" ++ e
               | None, None => query
               end).
Proof.
  intros Hq Hs He Hs0 He0.
  assert (Hne : forall s, Some s <> Some EmptyString ->
                          negb (String.eqb s "") = true).
  { intros s Hn. destruct (String.eqb_spec s ""); [congruence|reflexivity]. }
  unfold search_by_date_args, getitem, get. rewrite Hq, Hs, He. simpl.
  eexists; split; [reflexivity|]. split; [reflexivity|]. simpl.
  unfold date_filter.
  destruct start_date as [s|], end_date as [e|]; simpl;
    rewrite ?(Hne _ Hs0), ?(Hne _ He0); simpl; try reflexivity.
  now rewrite append_empty.
Qed.

(** C6 at work: a start date only. *)
Lemma C6_date_clause_witness :
  exists p : search_params,
    search_by_date_args since_args = Ok p
    /\ echo p = expression p
    /\ expression p = VStr ("todo" ++ " " ++ "date:" ++ "2025-01-01" ++ "/").
Proof.
  exact (C6_date_clause_forms since_args "todo" (Some "2025-01-01") None
           eq_refl eq_refl eq_refl
           ltac:(discriminate) ltac:(discriminate)).
Defined.

(** *** Content retrieval *)

(** C7: for a get-document-content invocation whose url is a string and
    whose file is readable with decoded content of length [L], the returned
    envelope holds as content the first [min L 10000] characters of the
    content (a prefix cut) and as truncated flag [true] exactly when
    [L > 10000]; the path read is the url without a leading [file://], or
    the url itself when it has no such prefix. The dispatcher runs this
    branch whenever the connection is established. *)
Theorem C7_content_prefix_and_flag
  (open_read : string -> outcome string)
  (arguments : gmap string pyval) (u content : string) (w : world) :
  arguments !! "url" = Some (VStr u) ->
  open_read (filepath_of u) = Ok content ->
  get_document_content open_read arguments w
  = (Ok [text_item
           (Dumps
              (JDict
                 [ ("url", JStr u);
                   ("filepath", JStr (filepath_of u));
                   ("content",
                     JStr (str_take
                             (Z.to_nat
                                (Z.min (Z.of_nat (String.length content)) 10000))
                             content));
                   ("truncated",
                     JBool (10000 <? Z.of_nat (String.length content))) ]))],
     w)
  /\ (forall (utcoffset : Z -> Z) (db : Db),
        handle_call_tool utcoffset open_read (Some db) "get_document_content"
          arguments w
        = get_document_content open_read arguments w)
  /\ Z.of_nat
       (String.length
          (str_take
             (Z.to_nat (Z.min (Z.of_nat (String.length content)) 10000))
             content))
     = Z.min (Z.of_nat (String.length content)) 10000
  /\ (exists rest,
        content
        = str_take
            (Z.to_nat (Z.min (Z.of_nat (String.length content)) 10000))
            content ++ rest)
  /\ ((10000 <? Z.of_nat (String.length content)) = true
      <-> 10000 < Z.of_nat (String.length content))
  /\ (forall path, u = "file://" ++ path -> filepath_of u = path)
  /\ (startswith "file://" u = false -> filepath_of u = u).
Proof.
  intros Hu Hread.
  assert (Hcut : str_take (Z.to_nat 10000) content
                 = str_take
                     (Z.to_nat
                        (Z.min (Z.of_nat (String.length content)) 10000))
                     content).
  { rewrite (str_take_min (Z.to_nat 10000)). f_equal. lia. }
  assert (Hbranch :
    get_document_content open_read arguments w
    = (Ok [text_item (Dumps (content_envelope u (filepath_of u) content))], w)).
  { unfold get_document_content, bind, lift, getitem. rewrite Hu, Hread.
    reflexivity. }
  split; [|split; [|split; [|split; [|split; [|split]]]]].
  - rewrite Hbranch. unfold content_envelope. now rewrite Hcut.
  - intros utcoffset db. unfold handle_call_tool, try_except.
    change (dispatch utcoffset open_read db "get_document_content" arguments)
      with (get_document_content open_read arguments).
    now rewrite Hbranch.
  - rewrite str_take_length. lia.
  - eexists. symmetry. apply str_take_drop.
  - apply Z.ltb_lt.
  - intros path ->. unfold filepath_of.
    rewrite startswith_append.
    exact (str_drop_append "file://" path).
  - intros Hno. unfold filepath_of. now rewrite Hno.
Qed.

(** C7 at work on the file [/tmp/x.txt]. *)
Lemma C7_content_witness :
  get_document_content demo_fs x_args idle
  = (Ok [text_item
           (Dumps (JDict [ ("url", JStr "file:///tmp/x.txt");
                           ("filepath", JStr "/tmp/x.txt");
                           ("content", JStr "hello");
                           ("truncated", JBool false) ]))],
     idle)
  /\ filepath_of "file:///tmp/x.txt" = "/tmp/x.txt".
Proof.
  pose proof (C7_content_prefix_and_flag demo_fs x_args "file:///tmp/x.txt"
                "hello" idle eq_refl eq_refl) as (H1 & _ & _ & _ & _ & H6 & _).
  split; [exact H1|].
  exact (H6 "/tmp/x.txt" eq_refl).
Defined.

(** A file of 10001 characters comes back cut to 10000, flagged. *)
Example long_file_truncated :
  match envelope_of
          (handle_call_tool utc (fun _ => Ok long_text) (Some two_hits)
             "get_document_content" x_args idle) with
  | Some env =>
      match field "content" env, field "truncated" env with
      | Some (JStr c), Some (JBool t) =>
          (Z.of_nat (String.length c) =? 10000) && t
      | _, _ => false
      end
  | None => false
  end = true.
Proof. vm_compute. reflexivity. Qed.

(** ** Further properties of the server *)

(** Whether [arguments] lacks the key [k]. *)
Definition missing (arguments : gmap string pyval) (k : string) : bool :=
  match arguments !! k with
  | Some _ => false
  | None => true
  end.

(** The calls one search block adds to the record: [query()], then, if a
    handle was obtained, [execute] and [k] fetches. *)
Definition search_trace (db : Db) (p : search_params) (k : nat) : list call :=
  CallQuery
  :: match query_answer db with
     | Ok _ => CallExecute (expression p) :: repeat CallFetchone k
     | Raise _ => []
     end.

Section DispatchViews.
Variable utcoffset : Z -> Z.
Variable open_read : string -> outcome string.

(** A search-family invocation on a live connection, unfolded to its
    argument stage and its engine block. *)
Lemma handle_search db name arguments o w :
  search_family_args name arguments = Some o ->
  handle_call_tool utcoffset open_read (Some db) name arguments w
  = match o with
    | Ok p =>
        match search_reply utcoffset db p w with
        | (Ok items, w') => (Ok items, w')
        | (Raise e, w') => (Ok (search_failed e), w')
        end
    | Raise e => (Ok (search_failed e), w)
    end.
Proof.
  intros Ho. unfold handle_call_tool, try_except.
  rewrite (dispatch_search _ _ _ _ _ _ Ho). unfold bind, lift, ret.
  destruct o as [p|e]; reflexivity.
Qed.

(** The content branch on a live connection, case by case. *)
Lemma handle_content db arguments w :
  handle_call_tool utcoffset open_read (Some db) "get_document_content"
    arguments w
  = (Ok [text_item
           (match arguments !! "url" with
            | None => Plain ("Error executing search: " ++ py_repr "url")
            | Some (VStr u) =>
                match open_read (filepath_of u) with
                | Ok content =>
                    Dumps (content_envelope u (filepath_of u) content)
                | Raise e => Plain ("Error reading file: " ++ msg e)
                end
            | Some v =>
                Plain ("Error executing search: '" ++ type_name v
                       ++ "' object has no attribute 'startswith'")
            end)],
     w).
Proof.
  unfold handle_call_tool, try_except.
  change (dispatch utcoffset open_read db "get_document_content" arguments)
    with (get_document_content open_read arguments).
  unfold get_document_content, bind, lift, getitem, raise, ret.
  destruct (arguments !! "url") as [[| | |u]|]; try reflexivity.
  destruct (open_read (filepath_of u)); reflexivity.
Qed.

Lemma search_reply_items db p w items w' :
  search_reply utcoffset db p w = (Ok items, w') ->
  exists env, items = [text_item (Dumps env)].
Proof.
  intros (nres & stream & b & hits & _ & _ & _ & _ & ->)%search_reply_inv.
  now eexists.
Qed.

(** The loop reads the cursor only: started on the same cursor it gives the
    same result, adds the same fetches to any record, and fetches at most
    [n] times. *)
Lemma fetch_loop_frame db ip n : forall acc cur,
  exists r k cur',
    (k <= n)%nat
    /\ forall cs,
         fetch_loop utcoffset db ip n acc {| calls := cs; cursor := cur |}
         = (r, {| calls := (cs ++ repeat CallFetchone k)%list;
                  cursor := cur' |}).
Proof.
  induction n as [|n IH]; intros acc cur.
  - exists (Ok acc), 0%nat, cur. split; [lia|]. intros cs; simpl.
    now rewrite app_nil_r.
  - destruct cur as [|doc rest].
    + exists (Raise (exhausted db)), 1%nat, []. split; [lia|].
      intros cs. reflexivity.
    + destruct (format_doc_result utcoffset doc ip) as [hit|e] eqn:Hd.
      * destruct (IH (acc ++ [JDict hit])%list rest) as (r & k & cur' & Hk & H).
        exists r, (S k), cur'. split; [lia|]. intros cs. simpl.
        unfold bind at 1, query_fetchone at 1; simpl.
        unfold bind at 1, lift at 1. rewrite Hd, H.
        now rewrite <- app_assoc.
      * exists (Raise e), 1%nat, rest. split; [lia|]. intros cs. simpl.
        unfold bind at 1, query_fetchone at 1; simpl.
        unfold bind at 1, lift at 1. now rewrite Hd.
Qed.

(** The engine block never reads the incoming world: its result is fixed
    by the handle and the parameters, and it adds one [search_trace] to the
    record. *)
Lemma search_reply_frame db p :
  exists r k cur',
    forall w,
      search_reply utcoffset db p w
      = (r, {| calls := (calls w ++ search_trace db p k)%list;
               cursor := cur' |}).
Proof.
  unfold search_trace.
  destruct (query_answer db) as [[]|e] eqn:Hq.
  - destruct (execute_answer db (expression p)) as [[nres stream]|e] eqn:He.
    + destruct (range_min (max_results p) nres) as [b|e] eqn:Hb.
      * destruct (fetch_loop_frame db (include_preview p) (Z.to_nat b) []
                    stream) as (r & k & cur' & _ & H).
        exists (match r with
                | Ok results =>
                    Ok [text_item (Dumps (search_envelope p nres results))]
                | Raise e => Raise e
                end), k, cur'.
        intros w. rewrite search_reply_prefix, Hq, He, Hb.
        unfold executed. rewrite H. rewrite <- app_assoc.
        destruct r; reflexivity.
      * exists (Raise e), 0%nat, stream. intros w.
        rewrite search_reply_prefix, Hq, He, Hb. reflexivity.
    + exists (Raise e), 0%nat, []. intros w.
      rewrite search_reply_prefix, Hq, He. reflexivity.
  - exists (Raise e), 0%nat, []. intros w.
    rewrite search_reply_prefix, Hq. reflexivity.
Qed.

End DispatchViews.

(** *** The registry and the dispatcher *)

Section RegistryFacts.
Variable utcoffset : Z -> Z.
Variable open_read : string -> outcome string.

Lemma handle_search_congr db name a1 a2 o w :
  search_family_args name a1 = Some o ->
  search_family_args name a2 = Some o ->
  handle_call_tool utcoffset open_read db name a1 w
  = handle_call_tool utcoffset open_read db name a2 w.
Proof.
  intros H1 H2. destruct db as [db|]; [|reflexivity].
  now rewrite (handle_search _ _ _ _ _ _ _ H1), (handle_search _ _ _ _ _ _ _ H2).
Qed.

Lemma handle_content_congr db a1 a2 w :
  a1 !! "url" = a2 !! "url" ->
  handle_call_tool utcoffset open_read db "get_document_content" a1 w
  = handle_call_tool utcoffset open_read db "get_document_content" a2 w.
Proof.
  intros H. destruct db as [db|]; [|reflexivity].
  now rewrite !handle_content, H.
Qed.

Lemma search_failed_not_unknown e name :
  search_failed e <> unknown_tool name.
Proof.
  unfold search_failed, unknown_tool. intros H.
  cbv [String.append] in H. discriminate H.
Qed.

(** X1: on a live connection the dispatcher has a branch for exactly the
    names the registry advertises: a name is advertised if and only if the
    response to it is something else than the unknown-tool message. *)
Theorem X1_registry_matches_dispatcher
  (db : Db) (name : string) (arguments : gmap string pyval) (w : world) :
  In name tool_names
  <-> fst (handle_call_tool utcoffset open_read (Some db) name arguments w)
      <> Ok (unknown_tool name).
Proof.
  split.
  - intros Hin.
    assert (Hs : forall o,
      search_family_args name arguments = Some o ->
      fst (handle_call_tool utcoffset open_read (Some db) name arguments w)
      <> Ok (unknown_tool name)).
    { intros o Ho. rewrite (handle_search _ _ _ _ _ _ _ Ho).
      destruct o as [p|e]; simpl.
      - destruct (search_reply utcoffset db p w) as [[items|e] w'] eqn:Hr;
          simpl.
        + apply search_reply_items in Hr as [env ->]. discriminate.
        + intros H. apply (search_failed_not_unknown e name). congruence.
      - intros H. apply (search_failed_not_unknown e name). congruence. }
    simpl in Hin.
    destruct Hin as [<-|[<-|[<-|[<-|[<-|[]]]]]];
      try (eapply Hs; reflexivity).
    rewrite handle_content; simpl.
    destruct (arguments !! "url") as [[| | |u]|];
      try destruct (open_read (filepath_of u));
      intros H; cbv [String.append] in H; discriminate H.
  - intros Hne.
    destruct (in_dec String.string_dec name tool_names) as [Hin|Hout];
      [exact Hin|].
    exfalso. apply Hne. unfold handle_call_tool, try_except.
    now rewrite dispatch_unknown.
Qed.

(** X2: the defaults the registry advertises are the defaults the
    dispatcher applies: for every advertised tool and every property that
    declares a default, leaving the argument out gives the same response
    and the same engine calls as passing the declared default. *)
Theorem X2_declared_defaults_are_applied
  (db : option Db) (tool : Tool) (key ty : string) (v : pyval)
  (arguments : gmap string pyval) (w : world) :
  In tool handle_list_tools ->
  In (key, ty, Some v) (properties tool) ->
  arguments !! key = None ->
  handle_call_tool utcoffset open_read db (tool_name tool)
    (<[key := v]> arguments) w
  = handle_call_tool utcoffset open_read db (tool_name tool) arguments w.
Proof.
  intros Ht Hp Hn. simpl in Ht.
  destruct Ht as [<-|[<-|[<-|[<-|[<-|[]]]]]]; simpl in Hp;
    repeat match goal with
    | H : _ \/ _ |- _ => destruct H
    | H : False |- _ => destruct H
    | H : (_, _, _) = (_, _, _) |- _ => inversion H; subst; clear H
    end;
    (eapply handle_search_congr; [reflexivity|];
     cbn [tool_name]; unfold search_family_args; simpl String.eqb;
     cbv iota; f_equal;
     unfold search_filesystem_args, search_by_date_args,
       search_by_filetype_args, list_recent_files_args, getitem, get;
     rewrite ?lookup_insert_eq, ?lookup_insert_ne, ?Hn by done;
     reflexivity).
Qed.

(** X3: the dispatcher reads declared properties only: for every
    advertised tool, adding or changing an argument whose name the tool's
    schema does not declare changes neither the response nor the engine
    calls. *)
Theorem X3_undeclared_arguments_are_ignored
  (db : option Db) (tool : Tool) (key : string) (v : pyval)
  (arguments : gmap string pyval) (w : world) :
  In tool handle_list_tools ->
  ~ In key (map (fun prop => fst (fst prop)) (properties tool)) ->
  handle_call_tool utcoffset open_read db (tool_name tool)
    (<[key := v]> arguments) w
  = handle_call_tool utcoffset open_read db (tool_name tool) arguments w.
Proof.
  intros Ht Hk. simpl in Ht.
  destruct Ht as [<-|[<-|[<-|[<-|[<-|[]]]]]]; simpl in Hk;
    cbn [tool_name];
    try (eapply handle_search_congr; [reflexivity|];
         unfold search_family_args; simpl String.eqb; cbv iota; f_equal;
         unfold search_filesystem_args, search_by_date_args,
           search_by_filetype_args, list_recent_files_args, getitem, get;
         rewrite ?lookup_insert_ne by (intros ->; apply Hk; auto 10);
         reflexivity).
  apply handle_content_congr.
  rewrite lookup_insert_ne by (intros ->; apply Hk; auto 10). reflexivity.
Qed.

(** X4: when a required argument of an advertised tool is missing, the
    response on a live connection is the text [Error executing search: ]
    followed by the quoted name of the first missing required argument
    (for [get_document_content] too), and neither the engine nor the file
    reader is touched. *)
Theorem X4_missing_required_argument
  (db : Db) (tool : Tool) (k : string)
  (arguments : gmap string pyval) (w : world) :
  In tool handle_list_tools ->
  find (missing arguments) (required tool) = Some k ->
  handle_call_tool utcoffset open_read (Some db) (tool_name tool) arguments w
  = (Ok [text_item (Plain ("Error executing search: " ++ py_repr k))], w).
Proof.
  intros Ht Hk. simpl in Ht.
  destruct Ht as [<-|[<-|[<-|[<-|[<-|[]]]]]]; simpl in Hk;
    cbn [tool_name]; unfold missing in Hk.
  - rewrite (handle_search utcoffset open_read db "search_filesystem" arguments
               (search_filesystem_args arguments) w eq_refl).
    unfold search_filesystem_args, getitem.
    destruct (arguments !! "query"); [discriminate|].
    injection Hk as <-. reflexivity.
  - rewrite (handle_search utcoffset open_read db "search_by_date" arguments
               (search_by_date_args arguments) w eq_refl).
    unfold search_by_date_args, getitem.
    destruct (arguments !! "query"); [discriminate|].
    injection Hk as <-. reflexivity.
  - rewrite (handle_search utcoffset open_read db "search_by_filetype" arguments
               (search_by_filetype_args arguments) w eq_refl).
    unfold search_by_filetype_args, getitem.
    destruct (arguments !! "query").
    + destruct (arguments !! "filetype"); [discriminate|].
      injection Hk as <-. reflexivity.
    + injection Hk as <-. reflexivity.
  - rewrite handle_content.
    destruct (arguments !! "url"); [discriminate|].
    injection Hk as <-. reflexivity.
  - discriminate.
Qed.

(** X5: in search-by-date a bound that is given but falsy (the empty
    string, [null], [false], [0]) counts as absent: the response and the
    engine calls are those of the invocation without that argument. *)
Theorem X5_falsy_date_counts_as_absent
  (db : option Db) (key : string) (v : pyval)
  (arguments : gmap string pyval) (w : world) :
  key = "start_date" \/ key = "end_date" ->
  truthy v = false ->
  handle_call_tool utcoffset open_read db "search_by_date"
    (<[key := v]> arguments) w
  = handle_call_tool utcoffset open_read db "search_by_date"
      (delete key arguments) w.
Proof.
  intros Hk Hv.
  eapply handle_search_congr; [reflexivity|].
  unfold search_family_args; simpl String.eqb; cbv iota; f_equal.
  unfold search_by_date_args, getitem, get, date_filter.
  destruct Hk as [-> | ->];
    rewrite ?lookup_insert_eq, ?lookup_insert_ne, ?lookup_delete_eq,
      ?lookup_delete_ne by done;
    simpl; rewrite Hv, ?andb_false_r; reflexivity.
Qed.

End RegistryFacts.

(** X2 at work: [max_results] left out of a plain search, or given as 20. *)
Lemma X2_defaults_witness :
  handle_call_tool utc demo_fs (Some two_hits) "search_filesystem"
    (<["max_results" := VInt 20]> todo_args) idle
  = handle_call_tool utc demo_fs (Some two_hits) "search_filesystem"
      todo_args idle.
Proof.
  exact (X2_declared_defaults_are_applied utc demo_fs (Some two_hits) _
           "max_results" "integer" (VInt 20) todo_args idle
           (or_introl eq_refl) (or_intror (or_introl eq_refl)) eq_refl).
Defined.

(** X3 at work: a stray [limit] argument on a plain search. *)
Lemma X3_undeclared_witness :
  handle_call_tool utc demo_fs (Some two_hits) "search_filesystem"
    (<["limit" := VInt 1]> todo_args) idle
  = handle_call_tool utc demo_fs (Some two_hits) "search_filesystem"
      todo_args idle.
Proof.
  refine (X3_undeclared_arguments_are_ignored utc demo_fs (Some two_hits) _
            "limit" (VInt 1) todo_args idle (or_introl eq_refl) _).
  simpl. intros H.
  repeat (destruct H as [H|H]; [discriminate H|]). exact H.
Defined.

(** X4 at work: search-by-filetype called with a query and no filetype. *)
Lemma X4_missing_required_witness :
  handle_call_tool utc demo_fs (Some two_hits) "search_by_filetype"
    todo_args idle
  = (Ok [text_item (Plain "Error executing search: 'filetype'")], idle).
Proof.
  exact (X4_missing_required_argument utc demo_fs two_hits _ "filetype"
           todo_args idle
           (or_intror (or_intror (or_introl eq_refl))) eq_refl).
Defined.

(** X5 at work: an empty start date. *)
Lemma X5_falsy_date_witness :
  handle_call_tool utc demo_fs (Some two_hits) "search_by_date"
    (<["start_date" := VStr EmptyString]> todo_args) idle
  = handle_call_tool utc demo_fs (Some two_hits) "search_by_date"
      (delete "start_date" todo_args) idle.
Proof.
  exact (X5_falsy_date_counts_as_absent utc demo_fs (Some two_hits)
           "start_date" (VStr EmptyString) todo_args idle
           (or_introl eq_refl) eq_refl).
Defined.

(** *** Content retrieval, beyond the envelope *)

(** X6: on a live connection, content retrieval never touches the engine
    (the record of calls and the cursor are left as they were) and its
    response does not depend on which connection is live. *)
Theorem X6_content_retrieval_leaves_engine_alone
  (utcoffset : Z -> Z) (open_read : string -> outcome string)
  (db1 db2 : Db) (arguments : gmap string pyval) (w : world) :
  snd (handle_call_tool utcoffset open_read (Some db1) "get_document_content"
         arguments w) = w
  /\ handle_call_tool utcoffset open_read (Some db1) "get_document_content"
       arguments w
     = handle_call_tool utcoffset open_read (Some db2) "get_document_content"
         arguments w.
Proof. rewrite !handle_content. split; reflexivity. Qed.

(** X7: when the url is a string and reading the file it stands for fails
    with an exception [e], the response on a live connection is the single
    text [Error reading file: ] followed by the message of [e], and the
    engine is not touched. *)
Theorem X7_read_failure_is_reported
  (utcoffset : Z -> Z) (open_read : string -> outcome string)
  (db : Db) (arguments : gmap string pyval) (u : string) (e : exn)
  (w : world) :
  arguments !! "url" = Some (VStr u) ->
  open_read (filepath_of u) = Raise e ->
  handle_call_tool utcoffset open_read (Some db) "get_document_content"
    arguments w
  = (Ok [text_item (Plain ("Error reading file: " ++ msg e))], w).
Proof.
  intros Hu Hr. now rewrite handle_content, Hu, Hr.
Qed.

(** X7 at work: a path that does not exist. *)
Lemma X7_read_failure_witness :
  handle_call_tool utc demo_fs (Some two_hits) "get_document_content"
    {[ "url" := VStr "/nope" ]} idle
  = (Ok [text_item
           (Plain ("Error reading file: "
                   ++ "[Errno 2] No such file or directory: '/nope'"))],
     idle).
Proof.
  exact (X7_read_failure_is_reported utc demo_fs two_hits
           {[ "url" := VStr "/nope" ]} "/nope"
           (Exn OSError "[Errno 2] No such file or directory: '/nope'")
           idle eq_refl eq_refl).
Defined.

(** X8: a url that is given but is no string (a number, a boolean, [null])
    is not reported as a read failure: the attribute error of
    [url.startswith] escapes to the outer handler, the response is the text
    [Error executing search: '<type>' object has no attribute 'startswith'],
    and no file is read. *)
Theorem X8_non_string_url
  (utcoffset : Z -> Z) (open_read : string -> outcome string)
  (db : Db) (arguments : gmap string pyval) (v : pyval) (w : world) :
  arguments !! "url" = Some v ->
  (forall u, v <> VStr u) ->
  handle_call_tool utcoffset open_read (Some db) "get_document_content"
    arguments w
  = (Ok [text_item
           (Plain ("Error executing search: '" ++ type_name v
                   ++ "' object has no attribute 'startswith'"))],
     w)
  /\ forall other_reader,
       handle_call_tool utcoffset other_reader (Some db)
         "get_document_content" arguments w
       = handle_call_tool utcoffset open_read (Some db)
           "get_document_content" arguments w.
Proof.
  intros Hu Hv. rewrite handle_content, Hu.
  destruct v as [| | |u]; try (split; [reflexivity|]);
    try (intros r; now rewrite handle_content, Hu).
  now destruct (Hv u).
Qed.

(** X8 at work: a numeric url. *)
Lemma X8_non_string_url_witness :
  handle_call_tool utc demo_fs (Some two_hits) "get_document_content"
    {[ "url" := VInt 7 ]} idle
  = (Ok [text_item
           (Plain ("Error executing search: '" ++ "int"
                   ++ "' object has no attribute 'startswith'"))],
     idle).
Proof.
  refine (proj1 (X8_non_string_url utc demo_fs two_hits
                   {[ "url" := VInt 7 ]} (VInt 7) idle eq_refl _)).
  intros u H. discriminate H.
Defined.

(** X9: the path read is always a suffix of the url, and what is cut off
    in front is nothing or exactly one [file://]: a url that starts with
    the prefix twice keeps the second one. *)
Theorem X9_filepath_is_suffix (u : string) :
  (u = filepath_of u /\ startswith "file://" u = false)
  \/ (u = "file://" ++ filepath_of u /\ startswith "file://" u = true).
Proof.
  unfold filepath_of.
  destruct (startswith "file://" u) eqn:Hs.
  - right. split; [|reflexivity].
    exact (startswith_split "file://" u Hs).
  - left. split; reflexivity.
Qed.

Example double_prefix_kept :
  filepath_of "file://file:///tmp/x.txt" = "file:///tmp/x.txt"
  /\ filepath_of "file://" = EmptyString
  /\ filepath_of "FILE:///tmp/x.txt" = "FILE:///tmp/x.txt".
Proof. repeat split. Qed.

(** *** Engine calls of an invocation *)

(** An engine whose [execute] rejects every expression. *)
Definition rejecting_db : Db :=
  {| query_answer := Ok tt;
     execute_answer := fun _ => Raise (Exn RuntimeError "syntax error");
     exhausted := Exn StopIteration "" |}.

(** A connection that can no longer open a query handle. *)
Definition closed_db : Db :=
  {| query_answer := Raise (Exn AttributeError "db is closed");
     execute_answer := fun _ => Ok (2, [note_doc; note_doc]);
     exhausted := Exn StopIteration "" |}.

Section TraceFacts.
Variable utcoffset : Z -> Z.
Variable open_read : string -> outcome string.

Lemma name_cases name arguments :
  (exists o, search_family_args name arguments = Some o)
  \/ name = "get_document_content"
  \/ ~ In name tool_names.
Proof.
  unfold search_family_args.
  destruct (String.eqb_spec name "search_filesystem") as [->|H1];
    [left; now eexists|].
  destruct (String.eqb_spec name "search_by_date") as [->|H2];
    [left; now eexists|].
  destruct (String.eqb_spec name "search_by_filetype") as [->|H3];
    [left; now eexists|].
  destruct (String.eqb_spec name "list_recent_files") as [->|H4];
    [left; now eexists|].
  destruct (String.eqb_spec name "get_document_content") as [->|H5];
    [right; left; reflexivity|].
  right; right. simpl. intros H.
  repeat (destruct H as [H|H]; [congruence|]). exact H.
Qed.

Lemma search_reply_inv_world db p w items w' :
  search_reply utcoffset db p w = (Ok items, w') ->
  exists nres stream b hits,
    query_answer db = Ok tt
    /\ execute_answer db (expression p) = Ok (nres, stream)
    /\ range_min (max_results p) nres = Ok b
    /\ Forall2 (normalized utcoffset (include_preview p))
         (firstn (Z.to_nat b) stream) hits
    /\ length hits = Z.to_nat b
    /\ items = [text_item (Dumps (search_envelope p nres (map JDict hits)))]
    /\ w' = after_fetches (Z.to_nat b) (executed p stream w).
Proof.
  rewrite search_reply_prefix.
  destruct (query_answer db) as [[]|e] eqn:Hq; [|discriminate].
  destruct (execute_answer db (expression p)) as [[nres stream]|e] eqn:He;
    [|discriminate].
  destruct (range_min (max_results p) nres) as [b|e] eqn:Hr; [|discriminate].
  destruct (fetch_loop _ _ _ _ _ _) as [[results|e] w1] eqn:Hloop;
    [|discriminate].
  intros H; inversion H; subst.
  apply fetch_loop_inv in Hloop as (hits & -> & HF & Hlen & ->).
  exists nres, stream, b, hits. simpl in *.
  pose proof (Forall2_length_eq _ _ _ HF) as Hl.
  rewrite length_take in Hl.
  repeat split; try assumption; try reflexivity. lia.
Qed.

(** What the argument stages fix, whatever the arguments. *)
Lemma stage_shape name arguments p :
  search_family_args name arguments = Some (Ok p) ->
  max_results p = get arguments "max_results" (VInt 20)
  /\ (name <> "list_recent_files" ->
      echo_key p = "query" /\ echo p = expression p)
  /\ (name = "list_recent_files" -> echo_key p = "days")
  /\ (name <> "search_filesystem" -> include_preview p = VBool true)
  /\ (name = "search_filesystem" ->
      include_preview p = get arguments "include_preview" (VBool true)).
Proof.
  unfold search_family_args.
  destruct (String.eqb_spec name "search_filesystem") as [->|H1].
  { unfold search_filesystem_args.
    destruct (getitem arguments "query"); [|discriminate]; simpl.
    intros [= <-]; simpl. repeat split; congruence. }
  destruct (String.eqb_spec name "search_by_date") as [->|H2].
  { unfold search_by_date_args.
    destruct (getitem arguments "query"); [|discriminate]; simpl.
    destruct (add_str _ _); [|discriminate]; simpl.
    intros [= <-]; simpl. repeat split; congruence. }
  destruct (String.eqb_spec name "search_by_filetype") as [->|H3].
  { unfold search_by_filetype_args.
    destruct (getitem arguments "query"); [|discriminate]; simpl.
    destruct (getitem arguments "filetype"); [|discriminate]; simpl.
    intros [= <-]; simpl. repeat split; congruence. }
  destruct (String.eqb_spec name "list_recent_files") as [->|H4];
    [|discriminate].
  unfold list_recent_files_args. intros [= <-]; simpl.
  repeat split; congruence.
Qed.

(** X10: invocations are isolated from one another: the response depends
    on the connection, the name and the arguments only, never on the calls
    recorded before or on a cursor left behind by an earlier invocation,
    and an invocation only ever appends to the record of engine calls. *)
Theorem X10_invocations_are_isolated
  (db : option Db) (name : string) (arguments : gmap string pyval) :
  exists (r : outcome (list TextContent)) (added : list call),
    forall w : world,
      fst (handle_call_tool utcoffset open_read db name arguments w) = r
      /\ calls (snd (handle_call_tool utcoffset open_read db name arguments w))
         = (calls w ++ added)%list.
Proof.
  destruct db as [db|];
    [|exists (Ok unavailable), []; intros w; simpl;
      rewrite app_nil_r; split; reflexivity].
  destruct (name_cases name arguments) as [[o Ho]|[->|Hout]].
  - destruct o as [p|e].
    + destruct (search_reply_frame utcoffset db p) as (r & k & cur' & H).
      exists (match r with
              | Ok items => Ok items
              | Raise e => Ok (search_failed e)
              end), (search_trace db p k).
      intros w. rewrite (handle_search _ _ _ _ _ _ _ Ho), H.
      destruct r; split; reflexivity.
    + exists (Ok (search_failed e)), []. intros w.
      rewrite (handle_search _ _ _ _ _ _ _ Ho); simpl.
      rewrite app_nil_r. split; reflexivity.
  - eexists _, []. intros w. rewrite handle_content; simpl.
    split; [reflexivity|]. now rewrite app_nil_r.
  - exists (Ok (unknown_tool name)), []. intros w.
    unfold handle_call_tool, try_except. rewrite dispatch_unknown by assumption.
    simpl. rewrite app_nil_r. split; reflexivity.
Qed.

(** X11: a search-family invocation that returns an envelope has made,
    in this order, one [query()], one [execute] and as many fetches as the
    envelope's [returned_results], which is the length of its [results];
    except for list-recent-files, the envelope's [query] is the very
    expression that was executed. *)
Theorem X11_envelope_matches_engine_calls
  (db : Db) (name : string) (arguments : gmap string pyval)
  (w w' : world) (env : json) :
  name <> "get_document_content" ->
  handle_call_tool utcoffset open_read (Some db) name arguments w
  = (Ok [text_item (Dumps env)], w') ->
  exists (q : pyval) (results : list json),
    calls w'
    = (calls w ++ [CallQuery; CallExecute q]
       ++ repeat CallFetchone (length results))%list
    /\ field "returned_results" env
       = Some (JInt (Z.of_nat (length results)))
    /\ field "results" env = Some (JList results)
    /\ (name <> "list_recent_files" -> field "query" env = Some (of_pyval q)).
Proof.
  intros Hname Hrun.
  destruct (name_cases name arguments) as [[o Ho]|[->|Hout]];
    [|congruence|].
  2:{ unfold handle_call_tool, try_except in Hrun.
      rewrite dispatch_unknown in Hrun by assumption. discriminate Hrun. }
  rewrite (handle_search _ _ _ _ _ _ _ Ho) in Hrun.
  destruct o as [p|e]; [|discriminate].
  destruct (search_reply utcoffset db p w) as [[items|e] w1] eqn:Hr;
    [|discriminate].
  injection Hrun as -> ->.
  apply search_reply_inv_world in Hr
    as (nres & stream & b & hits & Hq & He & Hb & HF & Hlen & [= ->] & ->).
  destruct (stage_shape _ _ _ Ho) as (_ & Hquery & Hdays & _).
  exists (expression p), (map JDict hits).
  assert (Hl : Z.to_nat b = length (map JDict hits))
    by (rewrite length_map; lia).
  rewrite Hl.
  unfold after_fetches, executed; simpl. rewrite <- app_assoc; simpl.
  split; [reflexivity|].
  destruct (String.eqb_spec name "list_recent_files") as [Hn|Hn].
  - rewrite (Hdays Hn). split; [reflexivity|]. split; [reflexivity|].
    intros Hne. now destruct Hne.
  - destruct (Hquery Hn) as [Hkey Hecho].
    unfold search_envelope. rewrite Hkey, Hecho.
    split; [reflexivity|]. split; [reflexivity|]. intros _. reflexivity.
Qed.

End TraceFacts.

(** X11 at work on the run [since_run]. *)
Lemma X11_envelope_witness :
  exists (q : pyval) (results : list json),
    calls (snd since_run)
    = (calls idle ++ [CallQuery; CallExecute q]
       ++ repeat CallFetchone (length results))%list
    /\ field "returned_results" since_env
       = Some (JInt (Z.of_nat (length results)))
    /\ field "results" since_env = Some (JList results)
    /\ ("search_by_date" <> "list_recent_files" ->
        field "query" since_env = Some (of_pyval q)).
Proof.
  refine (X11_envelope_matches_engine_calls utc demo_fs two_hits "search_by_date"
            since_args idle (snd since_run) since_env _ eq_refl).
  discriminate.
Defined.

(** *** Engine failures and edge values of the limit *)

Section EngineEdges.
Variable utcoffset : Z -> Z.
Variable open_read : string -> outcome string.

(** X12: when a search-family operation reaches the engine and the engine
    fails, the failure is reported as text and nothing further is asked of
    the engine: if [query()] raises [e], the response is
    [Error executing search: ] followed by the message of [e] after that
    one call; if [execute] raises [e], it is the same text after [query()]
    and [execute], and no hit is fetched. *)
Theorem X12_engine_failure_is_reported
  (db : Db) (name : string) (arguments : gmap string pyval)
  (p : search_params) (e : exn) (w : world) :
  search_family_args name arguments = Some (Ok p) ->
  query_answer db = Raise e
  \/ (query_answer db = Ok tt /\ execute_answer db (expression p) = Raise e) ->
  handle_call_tool utcoffset open_read (Some db) name arguments w
  = (Ok [text_item (Plain ("Error executing search: " ++ msg e))],
     {| calls := (calls w ++ search_trace db p 0)%list; cursor := [] |}).
Proof.
  intros Ho Hfail. rewrite (handle_search _ _ _ _ _ _ _ Ho).
  rewrite search_reply_prefix. unfold search_trace.
  destruct Hfail as [Hq|[Hq He]]; rewrite Hq; [reflexivity|].
  rewrite He. reflexivity.
Qed.

(** X13: a limit or a reported total that is zero or negative is no error:
    whenever [min(max_results, nres) <= 0] the envelope comes back with an
    empty [results], [returned_results] 0 and the engine's total, and no
    hit is fetched, whatever the cursor holds. *)
Theorem X13_nonpositive_bound_gives_empty_results
  (db : Db) (name : string) (arguments : gmap string pyval)
  (p : search_params) (nres b : Z) (stream : list Doc) (w : world) :
  search_family_args name arguments = Some (Ok p) ->
  query_answer db = Ok tt ->
  execute_answer db (expression p) = Ok (nres, stream) ->
  range_min (max_results p) nres = Ok b ->
  b <= 0 ->
  handle_call_tool utcoffset open_read (Some db) name arguments w
  = (Ok [text_item
           (Dumps (JDict [ (echo_key p, of_pyval (echo p));
                           ("total_results", JInt nres);
                           ("returned_results", JInt 0);
                           ("results", JList []) ]))],
     {| calls := (calls w ++ [CallQuery; CallExecute (expression p)])%list;
        cursor := stream |}).
Proof.
  intros Ho Hq He Hb Hle. rewrite (handle_search _ _ _ _ _ _ _ Ho).
  rewrite search_reply_prefix, Hq, He, Hb.
  replace (Z.to_nat b) with 0%nat by lia. reflexivity.
Qed.

(** X14: a [max_results] that is given but is no number (a string, or an
    explicit [null], which the default does not replace) fails only after
    the expression was executed: the response is the text
    [Error executing search: '<' not supported between instances of 'int'
    and '<type>'], after [query()] and [execute] and before any fetch. *)
Theorem X14_non_numeric_limit
  (db : Db) (name : string) (arguments : gmap string pyval)
  (p : search_params) (v : pyval) (nres : Z) (stream : list Doc)
  (w : world) :
  search_family_args name arguments = Some (Ok p) ->
  arguments !! "max_results" = Some v ->
  (v = VNone \/ exists s, v = VStr s) ->
  query_answer db = Ok tt ->
  execute_answer db (expression p) = Ok (nres, stream) ->
  handle_call_tool utcoffset open_read (Some db) name arguments w
  = (Ok [text_item
           (Plain ("Error executing search: "
                   ++ "'<' not supported between instances of 'int' and '"
                   ++ type_name v ++ "'"))],
     {| calls := (calls w ++ [CallQuery; CallExecute (expression p)])%list;
        cursor := stream |}).
Proof.
  intros Ho Hv Hkind Hq He.
  destruct (stage_shape _ _ _ Ho) as (Hm & _).
  unfold get in Hm. rewrite Hv in Hm; simpl in Hm.
  rewrite (handle_search _ _ _ _ _ _ _ Ho).
  rewrite search_reply_prefix, Hq, He, Hm.
  destruct Hkind as [-> | [s ->]]; reflexivity.
Qed.



End EngineEdges.

(** X12 at work: an engine that rejects the expression. *)
Lemma X12_engine_failure_witness :
  handle_call_tool utc demo_fs (Some rejecting_db) "search_filesystem"
    todo_args idle
  = (Ok [text_item (Plain ("Error executing search: " ++ "syntax error"))],
     {| calls := [CallQuery; CallExecute (VStr "todo")]; cursor := [] |}).
Proof.
  exact (X12_engine_failure_is_reported utc demo_fs rejecting_db
           "search_filesystem" todo_args todo_params
           (Exn RuntimeError "syntax error") idle eq_refl
           (or_intror (conj eq_refl eq_refl))).
Defined.

(** X13 at work: a limit of -3. *)
Lemma X13_nonpositive_bound_witness :
  handle_call_tool utc demo_fs (Some two_hits) "search_filesystem"
    (<["max_results" := VInt (-3)]> todo_args) idle
  = (Ok [text_item
           (Dumps (JDict [ ("query", JStr "todo");
                           ("total_results", JInt 2);
                           ("returned_results", JInt 0);
                           ("results", JList []) ]))],
     {| calls := [CallQuery; CallExecute (VStr "todo")];
        cursor := [note_doc; note_doc] |}).
Proof.
  exact (X13_nonpositive_bound_gives_empty_results utc demo_fs two_hits
           "search_filesystem" (<["max_results" := VInt (-3)]> todo_args)
           {| echo_key := "query"; echo := VStr "todo";
              expression := VStr "todo"; max_results := VInt (-3);
              include_preview := VBool true |}
           2 (-3) [note_doc; note_doc] idle
           eq_refl eq_refl eq_refl eq_refl ltac:(lia)).
Defined.

(** X14 at work: an explicit [null] limit. *)
Lemma X14_non_numeric_limit_witness :
  handle_call_tool utc demo_fs (Some two_hits) "search_filesystem"
    (<["max_results" := VNone]> todo_args) idle
  = (Ok [text_item
           (Plain ("Error executing search: "
                   ++ "'<' not supported between instances of 'int' and '"
                   ++ "NoneType" ++ "'"))],
     {| calls := [CallQuery; CallExecute (VStr "todo")];
        cursor := [note_doc; note_doc] |}).
Proof.
  exact (X14_non_numeric_limit utc demo_fs two_hits "search_filesystem"
           (<["max_results" := VNone]> todo_args)
           {| echo_key := "query"; echo := VStr "todo";
              expression := VStr "todo"; max_results := VNone;
              include_preview := VBool true |}
           VNone 2 [note_doc; note_doc] idle
           eq_refl eq_refl (or_introl eq_refl) eq_refl eq_refl).
Defined.



(** *** Argument values outside the schema, and the shape of a hit *)

Section ShapeFacts.
Variable utcoffset : Z -> Z.
Variable open_read : string -> outcome string.

(** X17: search-by-date concatenates the query with the date clause, so a
    query that is given but is no string (a number, a boolean, [null])
    fails before the engine is touched, with the text
    [Error executing search: unsupported operand type(s) for +: '<type>'
    and 'str'], with or without dates. *)
Theorem X17_date_search_needs_string_query
  (db : Db) (arguments : gmap string pyval) (v : pyval) (w : world) :
  arguments !! "query" = Some v ->
  (forall s, v <> VStr s) ->
  handle_call_tool utcoffset open_read (Some db) "search_by_date" arguments w
  = (Ok [text_item
           (Plain ("Error executing search: "
                   ++ "unsupported operand type(s) for +: '"
                   ++ type_name v ++ "' and 'str'"))],
     w).
Proof.
  intros Hq Hv.
  rewrite (handle_search utcoffset open_read db "search_by_date" arguments
             (search_by_date_args arguments) w eq_refl).
  unfold search_by_date_args, getitem. rewrite Hq; simpl.
  destruct v as [| | |s]; try reflexivity.
  now destruct (Hv s).
Qed.

(** X18: a record the normaliser returns has the keys [filename], [url],
    [mimetype], [size], [mtime], [mtime_readable], in this order, followed
    by [preview] exactly when the flag is truthy and the raw hit has an
    abstract; no key occurs twice and every value is a string. *)
Theorem X18_record_layout
  (doc : Doc) (ip : pyval) (hit : list (string * json)) :
  format_doc_result utcoffset doc ip = Ok hit ->
  map fst hit
  = ([ "filename"; "url"; "mimetype"; "size"; "mtime"; "mtime_readable" ]
     ++ match abstract doc with
        | Some _ => if truthy ip then ["preview"] else []
        | None => []
        end)%list
  /\ List.NoDup (map fst hit)
  /\ Forall (fun kv => exists s, snd kv = JStr s) hit.
Proof.
  intros (seconds & dt & _ & _ & ->)%format_doc_result_inv.
  unfold preview_entry, base_record.
  destruct (truthy ip), (abstract doc); simpl;
    (split; [reflexivity|]);
    (split;
     [repeat (constructor;
              [simpl; intros H;
               repeat (destruct H as [H|H]; [discriminate H|]); exact H|]);
      constructor
     |repeat (constructor; [now eexists|]); constructor]).
Qed.

(** X19: in a plain search the preview flag is read for its truth value:
    every hit of the returned envelope has a preview exactly when the
    [include_preview] argument (true when left out) is truthy and the raw
    hit has an abstract. A non-empty string counts as true, also the
    string [false]; [0], the empty string and [null] count as false. *)
Theorem X19_plain_search_preview_flag
  (db : Db) (arguments : gmap string pyval) (w w' : world) (env : json) :
  handle_call_tool utcoffset open_read (Some db) "search_filesystem"
    arguments w
  = (Ok [text_item (Dumps env)], w') ->
  exists (nres : Z) (stream : list Doc) (hits : list (list (string * json))),
    execute_answer db (default VNone (arguments !! "query"))
    = Ok (nres, stream)
    /\ results_of env = map JDict hits
    /\ Forall2
         (fun doc hit =>
            lookup_key "preview" hit
            = if truthy (get arguments "include_preview" (VBool true))
              then option_map (fun a => JStr (str_take 300 a)) (abstract doc)
              else None)
         (firstn (length hits) stream) hits.
Proof.
  intros Hrun.
  pose proof (search_response_inv utcoffset open_read db "search_filesystem"
                arguments (search_filesystem_args arguments) w env w'
                eq_refl Hrun)
    as (p & nres & stream & b & hits & Hp & He & Hb & HF & Hlen & ->).
  unfold search_filesystem_args, getitem in Hp.
  destruct (arguments !! "query") as [q|] eqn:Hq; [|discriminate].
  simpl in Hp. injection Hp as <-. simpl in *.
  exists nres, stream, hits. split; [exact He|]. split; [reflexivity|].
  pose proof (Forall2_length_eq _ _ _ HF) as Hl.
  rewrite length_take in Hl.
  replace (length hits) with (Z.to_nat b) by lia.
  eapply List.Forall2_impl; [|exact HF].
  intros doc hit Hn. red in Hn.
  exact (format_doc_result_preview _ _ _ _ Hn).
Qed.

End ShapeFacts.

(** X17 at work: a numeric query. *)
Lemma X17_date_search_witness :
  handle_call_tool utc demo_fs (Some two_hits) "search_by_date"
    {[ "query" := VInt 5 ]} idle
  = (Ok [text_item
           (Plain ("Error executing search: "
                   ++ "unsupported operand type(s) for +: '"
                   ++ "int" ++ "' and 'str'"))],
     idle).
Proof.
  refine (X17_date_search_needs_string_query utc demo_fs two_hits
            {[ "query" := VInt 5 ]} (VInt 5) idle eq_refl _).
  intros s H. discriminate H.
Defined.

(** X18 at work on a hit with an abstract. *)
Lemma X18_record_layout_witness :
  map fst (base_record note_doc "2023-11-14 22:13:20"
           ++ [("preview", JStr "hello world")])%list
  = [ "filename"; "url"; "mimetype"; "size"; "mtime"; "mtime_readable";
      "preview" ].
Proof.
  exact (proj1 (X18_record_layout utc note_doc (VBool true)
                  (base_record note_doc "2023-11-14 22:13:20"
                   ++ [("preview", JStr "hello world")])%list eq_refl)).
Defined.

(** The run of a plain search whose preview flag is the string [false]. *)
Definition false_string_run : outcome (list TextContent) * world :=
  Eval vm_compute in
    handle_call_tool utc demo_fs (Some two_hits) "search_filesystem"
      (<["include_preview" := VStr "false"]> todo_args) idle.

Definition false_string_env : json :=
  Eval vm_compute in
    match envelope_of false_string_run with
    | Some env => env
    | None => JNull
    end.

(** X19 at work: the string [false] switches previews on. *)
Lemma X19_preview_flag_witness :
  exists (nres : Z) (stream : list Doc) (hits : list (list (string * json))),
    execute_answer two_hits (VStr "todo") = Ok (nres, stream)
    /\ results_of false_string_env = map JDict hits
    /\ Forall2
         (fun doc hit =>
            lookup_key "preview" hit
            = option_map (fun a => JStr (str_take 300 a)) (abstract doc))
         (firstn (length hits) stream) hits.
Proof.
  exact (X19_plain_search_preview_flag utc demo_fs two_hits
           (<["include_preview" := VStr "false"]> todo_args) idle
           (snd false_string_run) false_string_env eq_refl).
Defined.

Example false_string_has_previews :
  map has_preview (results_of false_string_env) = [true; true].
Proof. reflexivity. Qed.

(** *** The readable time of a hit *)

Definition two_digits (s : string) : bool :=
  match s with
  | String a (String b EmptyString) => is_digit a && is_digit b
  | _ => false
  end.

Definition four_digits (s : string) : bool :=
  match s with
  | String a (String b (String c (String d EmptyString))) =>
      is_digit a && is_digit b && is_digit c && is_digit d
  | _ => false
  end.

(** The shape [dddd-dd-dd dd:dd:dd]. *)
Definition readable_shape (s : string) : bool :=
  four_digits (str_take 4 s)
  && String.eqb (str_take 1 (str_drop 4 s)) "-"
  && two_digits (str_take 2 (str_drop 5 s))
  && String.eqb (str_take 1 (str_drop 7 s)) "-"
  && two_digits (str_take 2 (str_drop 8 s))
  && String.eqb (str_take 1 (str_drop 10 s)) " "
  && two_digits (str_take 2 (str_drop 11 s))
  && String.eqb (str_take 1 (str_drop 13 s)) ":"
  && two_digits (str_take 2 (str_drop 14 s))
  && String.eqb (str_take 1 (str_drop 16 s)) ":"
  && two_digits (str_take 2 (str_drop 17 s))
  && (String.length s =? 19)%nat.

Section ReadableFacts.

Lemma range_check (f : Z -> string) (chk : string -> bool) (lo len : nat) :
  forallb (fun n => chk (f (Z.of_nat n))) (seq lo len) = true ->
  forall z, Z.of_nat lo <= z < Z.of_nat (lo + len) -> chk (f z) = true.
Proof.
  intros H z Hz. rewrite List.forallb_forall in H.
  specialize (H (Z.to_nat z)). rewrite Z2Nat.id in H by lia.
  apply H. apply List.in_seq. lia.
Qed.

Lemma pad2_digits z : 0 <= z < 100 -> two_digits (pad 2 z) = true.
Proof.
  intros Hz. apply (range_check (pad 2) two_digits 0 100); [|lia].
  vm_compute. reflexivity.
Qed.

Lemma year_digits z : 1000 <= z < 10000 -> four_digits (str_of_Z z) = true.
Proof.
  intros Hz.
  apply (range_check str_of_Z four_digits 1000 (Z.to_nat 9000)); [|lia].
  vm_compute. reflexivity.
Qed.

Lemma two_digits_inv s :
  two_digits s = true ->
  exists a b, s = String a (String b EmptyString)
              /\ is_digit a = true /\ is_digit b = true.
Proof.
  destruct s as [|a [|b [|c r]]]; simpl; try discriminate.
  intros [Ha Hb]%andb_prop. now exists a, b.
Qed.

Lemma four_digits_inv s :
  four_digits s = true ->
  exists a b c d,
    s = String a (String b (String c (String d EmptyString)))
    /\ is_digit a = true /\ is_digit b = true
    /\ is_digit c = true /\ is_digit d = true.
Proof.
  destruct s as [|a [|b [|c [|d [|e r]]]]]; simpl; try discriminate.
  intros [[[Ha Hb]%andb_prop Hc]%andb_prop Hd]%andb_prop.
  now exists a, b, c, d.
Qed.

Lemma strftime_shape dt :
  1000 <= year dt < 10000 -> 0 <= month dt < 100 -> 0 <= day dt < 100 ->
  0 <= hour dt < 100 -> 0 <= minute dt < 100 -> 0 <= second dt < 100 ->
  readable_shape (strftime dt) = true.
Proof.
  intros Hy Hm Hd Hh Hn Hs. unfold strftime.
  destruct (four_digits_inv _ (year_digits _ Hy))
    as (y1 & y2 & y3 & y4 & -> & Hy1 & Hy2 & Hy3 & Hy4).
  destruct (two_digits_inv _ (pad2_digits _ Hm)) as (m1 & m2 & -> & ? & ?).
  destruct (two_digits_inv _ (pad2_digits _ Hd)) as (d1 & d2 & -> & ? & ?).
  destruct (two_digits_inv _ (pad2_digits _ Hh)) as (h1 & h2 & -> & ? & ?).
  destruct (two_digits_inv _ (pad2_digits _ Hn)) as (n1 & n2 & -> & ? & ?).
  destruct (two_digits_inv _ (pad2_digits _ Hs)) as (s1 & s2 & -> & ? & ?).
  cbv [String.append readable_shape str_take str_drop four_digits
         two_digits String.length Nat.eqb].
  repeat match goal with H : is_digit _ = true |- _ => rewrite H; clear H end.
  reflexivity.
Qed.

End ReadableFacts.

(** X20: for a token made of any one character followed by the decimal
    rendering of an instant [t] whose wall clock shows 1970-01-01 00:00:00
    or later, up to one day before the end of year 9999 (offsets of the
    zone within a day), the normaliser returns a record whatever the
    preview flag, and its [mtime_readable] has the shape
    [dddd-dd-dd dd:dd:dd] (19 characters). *)
Theorem X20_readable_time_shape
  (utcoffset : Z -> Z) (doc : Doc) (ip : pyval) (c : ascii) (t : Z) :
  mtime doc = String c (str_of_Z t) ->
  (forall u, -86400 <= utcoffset u <= 86400) ->
  0 <= local_seconds utcoffset t ->
  t <= last_second - 86400 ->
  exists (hit : list (string * json)) (readable : string),
    format_doc_result utcoffset doc ip = Ok hit
    /\ lookup_key "mtime_readable" hit = Some (JStr readable)
    /\ readable_shape readable = true.
Proof.
  intros Hm Hoff Hl Ht.
  assert (Hin : first_second + 259200 <= t <= last_second - 86400).
  { split; [|exact Ht]. unfold first_second.
    unfold local_seconds in Hl. pose proof (Hoff t). lia. }
  destruct (token_decodes utcoffset doc ip c t Hm Hoff Hin)
    as (dt & _ & Hhit & Hy & Hmo & Hd & Hh & Hn & Hs & H70).
  specialize (H70 Hl).
  eexists. exists (strftime dt). split; [exact Hhit|]. split.
  - reflexivity.
  - apply strftime_shape; lia.
Qed.

(** X20 at work on the timestamp [1700000000], read in UTC. *)
Lemma X20_readable_time_witness :
  exists (hit : list (string * json)) (readable : string),
    format_doc_result utc note_doc (VBool true) = Ok hit
    /\ lookup_key "mtime_readable" hit = Some (JStr readable)
    /\ readable_shape readable = true.
Proof.
  refine (X20_readable_time_shape utc note_doc (VBool true) "0"
            1700000000 eq_refl _ _ _).
  - intros u. unfold utc. lia.
  - unfold local_seconds, utc. lia.
  - unfold last_second. lia.
Defined.

(** Before the year 1000 the readable time is shorter: the year is written
    without padding. *)
Example early_year_is_short :
  obind (format_doc_result utc (with_mtime note_doc "0-50000000000")
           (VBool false))
    (fun hit => Ok (lookup_key "mtime_readable" hit))
  = Ok (Some (JStr "385-07-25 07:06:40")).
Proof. vm_compute. reflexivity. Qed.

(** *** Start-up *)

(** The module-level connection attempt: the handle, or [None] and a
    warning printed, when connecting raises. *)
Definition connect_at_startup (attempt : outcome Db)
  : option Db * list string :=
  match attempt with
  | Ok db => (Some db, [])
  | Raise e =>
      (None,
       ["Warning: Could not connect to Recoll database: " ++ msg e])
  end.


